(** * The MCP JSON-RPC server of aider (src/aider/mcp_server.py)

    A shallow embedding of the request dispatcher [handle_mcp_request] and
    of its two method handlers, [handle_get_context] and
    [handle_apply_changes].  Python code that logs, calls the two external
    providers and raises or catches exceptions is written in a state and
    exception monad; the providers themselves ([aider.io.InputOutput] and
    [aider.repo.GitRepo]) are parameters of the development. *)

From Stdlib Require Import ZArith Ascii String.
From stdpp Require Import base option list gmap strings pretty.

Set Warnings "-register-all".
Local Open Scope Z_scope.
Local Open Scope string_scope.
Local Open Scope list_scope.

(** ** Python values

    [Dict[str, Any]] parameters carry arbitrary decoded JSON.  A nested
    dictionary keeps its items as an association list; a float is kept
    as its literal, no field of the protocol takes one. *)

Inductive PyVal : Type :=
  | PNone
  | PBool (b : bool)
  | PInt (n : Z)
  | PFloat (literal : string)
  | PStr (s : string)
  | PList (l : list PyVal)
  | PDict (d : list (string * PyVal)).

(** ** Exceptions

    Only subclasses of [Exception] are modelled: every [except Exception]
    clause of the source catches each value of [Exn].  [exn_str e] is
    [str(e)]. *)

Inductive ExnClass : Type :=
  | FileNotFoundError
  | ValidationError
  | AttributeError
  | OtherException (name : string).

Record Exn : Type := PyExn { exn_class : ExnClass; exn_str : string }.

Definition is_FileNotFoundError (e : Exn) : bool :=
  match exn_class e with
  | FileNotFoundError => true
  | _ => false
  end.

(** ** Logging *)

Inductive LogLevel : Type := INFO | WARNING | ERROR.

Definition LogRecord : Type := LogLevel * string.

(** ** The monad of handler code

    The state is the world the providers act upon together with the log
    written so far.  A raised exception keeps every effect performed
    before it. *)

Inductive Outcome (A : Type) : Type :=
  | Return (a : A)
  | Raise (e : Exn).
Arguments Return {A} a.
Arguments Raise {A} e.

Record St (W : Type) : Type := mkSt { world : W; logs : list LogRecord }.
Arguments mkSt {W} world logs.
Arguments world {W} s.
Arguments logs {W} s.

Definition M (W A : Type) : Type := St W -> Outcome A * St W.

Definition ret {W A} (a : A) : M W A := fun st => (Return a, st).

Definition raise {W A} (e : Exn) : M W A := fun st => (Raise e, st).

Definition bind {W A B} (m : M W A) (k : A -> M W B) : M W B :=
  fun st =>
    match m st with
    | (Return a, st') => k a st'
    | (Raise e, st') => (Raise e, st')
    end.

(** [try: m except Exception as e: h e] *)
Definition try_except {W A} (m : M W A) (h : Exn -> M W A) : M W A :=
  fun st =>
    match m st with
    | (Return a, st') => (Return a, st')
    | (Raise e, st') => h e st'
    end.

Notation "'let*' x := m 'in' k" := (bind m (fun x => k))
  (at level 10, x name, m at level 100, k at level 200).
Notation "'run' m 'in' k" := (bind m (fun _ => k))
  (at level 10, m at level 100, k at level 200).

(** A call into a provider: it acts on the world and leaves the log. *)
Definition call {W A} (f : W -> Outcome A * W) : M W A :=
  fun st =>
    let (r, w') := f (world st) in (r, mkSt w' (logs st)).

Definition logger (lvl : LogLevel) {W} (msg : string) : M W unit :=
  fun st => (Return tt, mkSt (world st) (logs st ++ [(lvl, msg)])).

(** ** Insertion-ordered dictionaries

    [file_contents[file_path] = v]: a key that is already present keeps
    its position and takes the new value; a new key goes last. *)

Fixpoint dict_setitem {V} (d : list (string * V)) (k : string) (v : V)
  : list (string * V) :=
  match d with
  | [] => [(k, v)]
  | (k', v') :: d' =>
      if decide (k' = k) then (k', v) :: d'
      else (k', v') :: dict_setitem d' k v
  end.

Fixpoint dict_get {V} (d : list (string * V)) (k : string) : option V :=
  match d with
  | [] => None
  | (k', v') :: d' => if decide (k' = k) then Some v' else dict_get d' k
  end.

Definition dict_keys {V} (d : list (string * V)) : list string := d.*1.

(** ** [os.path.basename] (posixpath)

    [i = p.rfind('/') + 1; return p[i:]] *)

Fixpoint rfind_from (c : ascii) (s : string) (pos found : Z) : Z :=
  match s with
  | EmptyString => found
  | String a s' =>
      rfind_from c s' (pos + 1) (if Ascii.eqb a c then pos else found)
  end.

Definition rfind (c : ascii) (s : string) : Z := rfind_from c s 0 (-1).

Fixpoint slice_from (i : nat) (s : string) : string :=
  match i, s with
  | O, _ => s
  | S i', EmptyString => EmptyString
  | S i', String _ s' => slice_from i' s'
  end.

Definition basename (p : string) : string :=
  let i := rfind "/"%char p + 1 in
  slice_from (Z.to_nat i) p.

(** ** The protocol models (pydantic [BaseModel] classes) *)

Inductive RpcId : Type :=
  | IdInt (n : Z)
  | IdStr (s : string).

Module JsonRpcRequest.
Record t : Type := mk {
  jsonrpc : string;
  method : string;
  params : option (gmap string PyVal);
  id : option RpcId
}.
End JsonRpcRequest.

Record GetContextParams : Type := { file_paths : list string }.

Record GetContextResult : Type := { files : list (string * option string) }.

Record ApplyChangesParams : Type := { file_path : string; content : string }.

Record ApplyChangesResult : Type := { success : bool; message : option string }.

(** What [model_dump()] of a handler's result gives. *)
Inductive ResultDump : Type :=
  | GetContextDump (r : GetContextResult)
  | ApplyChangesDump (r : ApplyChangesResult).

(** The error object [{"code": ..., "message": ...}]. *)
Record RpcError : Type := { code : Z; error_message : string }.

Module JsonRpcResponse.
Record t : Type := mk {
  jsonrpc : string;
  result : option ResultDump;
  error : option RpcError;
  id : option RpcId
}.
End JsonRpcResponse.

(** [JsonRpcResponse(error=..., id=...)] and [JsonRpcResponse(result=...,
    id=...)]: the fields left out take their defaults. *)
Definition error_response (c : Z) (msg : string) (i : option RpcId)
  : JsonRpcResponse.t :=
  JsonRpcResponse.mk "2.0" None (Some {| code := c; error_message := msg |}) i.

Definition result_response (r : ResultDump) (i : option RpcId)
  : JsonRpcResponse.t :=
  JsonRpcResponse.mk "2.0" (Some r) None i.

(** ** Parameter validation

    Building [GetContextParams] and [ApplyChangesParams] from the keyword
    arguments [params]: a required field must be present with a value of its type; other keys
    are ignored.  Of pydantic's multi-line error text only the headline
    and the names of the offending fields are kept. *)

Definition as_str (v : PyVal) : option string :=
  match v with
  | PStr s => Some s
  | _ => None
  end.

Definition as_str_list (v : PyVal) : option (list string) :=
  match v with
  | PList l => mapM as_str l
  | _ => None
  end.

Definition validation_error (model : string) (fields : list string) : Exn :=
  PyExn ValidationError
    (pretty (length fields) +:+ " validation error(s) for " +:+ model +:+ ": "
     +:+ String.concat ", " fields).

Definition GetContextParams_init (params : gmap string PyVal)
  : Outcome GetContextParams :=
  match params !! "file_paths" ≫= as_str_list with
  | Some l => Return {| file_paths := l |}
  | None => Raise (validation_error "GetContextParams" ["file_paths"])
  end.

Definition ApplyChangesParams_init (params : gmap string PyVal)
  : Outcome ApplyChangesParams :=
  match params !! "file_path" ≫= as_str, params !! "content" ≫= as_str with
  | Some p, Some c => Return {| file_path := p; content := c |}
  | None, Some _ => Raise (validation_error "ApplyChangesParams" ["file_path"])
  | Some _, None => Raise (validation_error "ApplyChangesParams" ["content"])
  | None, None =>
      Raise (validation_error "ApplyChangesParams" ["file_path"; "content"])
  end.

Definition lift {W A} (o : Outcome A) : M W A := fun st => (o, st).

(** ** The providers

    [aider.io.InputOutput] and [aider.repo.GitRepo] are supplied to
    [run_server] by the caller.  The server uses two methods of the first
    and one of the second; each may change the world and may raise. *)

Record InputOutput (W : Type) : Type := {
  read_text : string -> W -> Outcome string * W;
  write_text : string -> string -> W -> Outcome unit * W
}.
Arguments read_text {W} i filename w.
Arguments write_text {W} i filename content w.

Record GitRepo (W : Type) : Type := {
  commit : string -> list string -> W -> Outcome unit * W
}.
Arguments commit {W} g message files w.

(** The module globals [aider_io] and [aider_git_repo]: [None] until
    [run_server] stores the providers, never reassigned by a request. *)
Record Server (W : Type) : Type := {
  aider_io : option (InputOutput W);
  aider_git_repo : option (GitRepo W)
}.
Arguments aider_io {W} s.
Arguments aider_git_repo {W} s.

Definition run_server {W} (io_instance : option (InputOutput W))
    (git_repo_instance : option (GitRepo W)) : Server W :=
  {| aider_io := io_instance; aider_git_repo := git_repo_instance |}.

(** [x is not None]; it is also the truth value of an optional provider,
    since neither provider class defines [__bool__] or [__len__]. *)
Definition is_not_None {A} (x : option A) : bool :=
  match x with
  | Some _ => true
  | None => false
  end.

(** Attribute access on [None]. *)
Definition NoneType_has_no (attr : string) : Exn :=
  PyExn AttributeError
    ("'NoneType' object has no attribute '" +:+ attr +:+ "'").

Section Handlers.
Context {W : Type} (srv : Server W).

Definition aider_io_read_text (file_path : string) : M W string :=
  match aider_io srv with
  | Some io => call (read_text io file_path)
  | None => raise (NoneType_has_no "read_text")
  end.

Definition aider_io_write_text (file_path new_content : string) : M W unit :=
  match aider_io srv with
  | Some io => call (write_text io file_path new_content)
  | None => raise (NoneType_has_no "write_text")
  end.

Definition aider_git_repo_commit (message : string) (files : list string)
  : M W unit :=
  match aider_git_repo srv with
  | Some repo => call (commit repo message files)
  | None => raise (NoneType_has_no "commit")
  end.

(** *** [handle_get_context] *)

(** The body of [for file_path in context_params.file_paths]. *)
Definition read_one (file_contents : list (string * option string))
    (file_path : string) : M W (list (string * option string)) :=
  try_except
    (let* content := aider_io_read_text file_path in
     ret (dict_setitem file_contents file_path (Some content)))
    (fun e =>
       if is_FileNotFoundError e then
         run logger WARNING ("File not found: " +:+ file_path) in
         ret (dict_setitem file_contents file_path None)
       else
         run logger ERROR
           ("Error reading file " +:+ file_path +:+ ": " +:+ exn_str e) in
         ret (dict_setitem file_contents file_path None)).

Fixpoint read_each (paths : list string)
    (file_contents : list (string * option string))
  : M W (list (string * option string)) :=
  match paths with
  | [] => ret file_contents
  | file_path :: rest =>
      let* file_contents' := read_one file_contents file_path in
      read_each rest file_contents'
  end.

Definition handle_get_context (params : gmap string PyVal) : M W ResultDump :=
  try_except
    (let* context_params := lift (GetContextParams_init params) in
     let* file_contents := read_each (file_paths context_params) [] in
     let result := {| files := file_contents |} in
     ret (GetContextDump result))
    (fun e =>
       run logger ERROR ("Error in handle_get_context: " +:+ exn_str e) in
       raise e).

(** *** [handle_apply_changes] *)

Definition handle_apply_changes (params : gmap string PyVal)
  : M W ResultDump :=
  try_except
    (let* change_params := lift (ApplyChangesParams_init params) in
     let file_path := file_path change_params in
     let new_content := content change_params in
     let has_git := is_not_None (aider_git_repo srv) in
     run logger INFO ("Writing changes to " +:+ file_path) in
     run aider_io_write_text file_path new_content in
     let* result :=
       if has_git then
         try_except
           (let commit_message :=
              "MCP: Apply changes to " +:+ basename file_path in
            run logger INFO
              ("Committing changes with message: '" +:+ commit_message
               +:+ "'") in
            run aider_git_repo_commit commit_message [file_path] in
            ret {| success := true;
                   message := Some ("Changes applied and committed to "
                                    +:+ file_path) |})
           (fun e =>
              run logger ERROR
                ("Error committing changes: " +:+ exn_str e) in
              ret {| success := true;
                     message := Some ("Changes applied to " +:+ file_path
                                      +:+ " but not committed: "
                                      +:+ exn_str e) |})
       else
         ret {| success := true;
                message := Some ("Changes applied to " +:+ file_path
                                 +:+ " (no git repository)") |} in
     ret (ApplyChangesDump result))
    (fun e =>
       run logger ERROR ("Error in handle_apply_changes: " +:+ exn_str e) in
       ret (ApplyChangesDump
              {| success := false;
                 message := Some ("Error applying changes: "
                                  +:+ exn_str e) |})).

(** *** [handle_mcp_request] *)

Definition handle_mcp_request (request : JsonRpcRequest.t)
  : M W JsonRpcResponse.t :=
  let method := JsonRpcRequest.method request in
  let id := JsonRpcRequest.id request in
  run logger INFO ("Received MCP request: " +:+ method) in
  if decide (method = "") then
    ret (error_response (-32600) "Invalid Request" id)
  else if negb (is_not_None (aider_io srv)) then
    ret (error_response (-32603) "Aider IO not initialized" id)
  else
    try_except
      (if decide (method = "getContext") then
         let* result :=
           handle_get_context (default ∅ (JsonRpcRequest.params request)) in
         ret (result_response result id)
       else if decide (method = "applyChanges") then
         let* result :=
           handle_apply_changes (default ∅ (JsonRpcRequest.params request)) in
         ret (result_response result id)
       else
         ret (error_response (-32601)
                ("Method '" +:+ method +:+ "' not found") id))
      (fun e =>
         run logger ERROR ("Error handling request: " +:+ exn_str e) in
         ret (error_response (-32000)
                ("Server error: " +:+ exn_str e) id)).
End Handlers.

(** ** File stores

    What the statements about file contents assume of the providers.  The world
    shows, for each path, the text stored there ([None]: no such file).  A
    write that returns has stored its text; a write that raises has left
    the file as it was; a commit, whether it returns or raises, leaves the
    working files alone. *)

Class FileStore {W} (io : InputOutput W) (content_of : W -> string -> option string)
  : Prop := {
  write_text_stores p c w w' :
    write_text io p c w = (Return tt, w') -> content_of w' p = Some c;
  write_text_failed p c w e w' :
    write_text io p c w = (Raise e, w') -> content_of w' p = content_of w p
}.

Class KeepsFiles {W} (repo : option (GitRepo W))
    (content_of : W -> string -> option string) : Prop :=
  commit_keeps_files r msg fs w p :
    repo = Some r -> content_of (commit r msg fs w).2 p = content_of w p.

(** Reads that do not disturb each other: what a read of [p] gives is the
    same before and after a read of any [q]. *)
Definition StableReads {W} (io : InputOutput W) : Prop :=
  forall p q w, (read_text io p (read_text io q w).2).1 = (read_text io p w).1.

(** ** An in-memory file store and repository

    One instance of the providers, used to run the handlers on concrete
    requests. *)

(** Modelled from the spec: a file I/O provider that reads and writes text
    files and raises a distinguishable not-found condition, and a
    version-control provider that records commits and may fail
    independently of the write.  Faults are part of the world: a path can
    be unreadable or unwritable, and the repository can refuse commits. *)
Record MemWorld : Type := {
  mem_files : gmap string string;
  mem_unreadable : gmap string Exn;
  mem_unwritable : gmap string Exn;
  mem_commit_fault : option Exn;
  mem_history : list (string * list string)
}.

Definition mem_content (w : MemWorld) (p : string) : option string :=
  mem_files w !! p.

Definition mem_read_text (p : string) (w : MemWorld) : Outcome string * MemWorld :=
  match mem_unreadable w !! p with
  | Some e => (Raise e, w)
  | None =>
      match mem_files w !! p with
      | Some c => (Return c, w)
      | None =>
          (Raise (PyExn FileNotFoundError
                    ("[Errno 2] No such file or directory: '" +:+ p +:+ "'")),
           w)
      end
  end.

Definition mem_write_text (p c : string) (w : MemWorld) : Outcome unit * MemWorld :=
  match mem_unwritable w !! p with
  | Some e => (Raise e, w)
  | None =>
      (Return tt,
       {| mem_files := <[p := c]> (mem_files w);
          mem_unreadable := mem_unreadable w;
          mem_unwritable := mem_unwritable w;
          mem_commit_fault := mem_commit_fault w;
          mem_history := mem_history w |})
  end.

Definition mem_commit (msg : string) (fs : list string) (w : MemWorld)
  : Outcome unit * MemWorld :=
  match mem_commit_fault w with
  | Some e => (Raise e, w)
  | None =>
      (Return tt,
       {| mem_files := mem_files w;
          mem_unreadable := mem_unreadable w;
          mem_unwritable := mem_unwritable w;
          mem_commit_fault := mem_commit_fault w;
          mem_history := mem_history w ++ [(msg, fs)] |})
  end.

Definition mem_io : InputOutput MemWorld :=
  {| read_text := mem_read_text; write_text := mem_write_text |}.

Definition mem_repo : GitRepo MemWorld := {| commit := mem_commit |}.

(** ** Notions used in the statements *)

(** The paths of a list, each once, in the order of first occurrence. *)
Fixpoint first_occurrences (l : list string) : list string :=
  match l with
  | [] => []
  | x :: l' => x :: filter (fun y => y ≠ x) (first_occurrences l')
  end.

(** [c in s] *)
Fixpoint has_char (c : ascii) (s : string) : bool :=
  match s with
  | EmptyString => false
  | String a s' => Ascii.eqb a c || has_char c s'
  end.

(** The entry of [result.files] for a read that gave [o]. *)
Definition file_entry (o : Outcome string) : option string :=
  match o with
  | Return c => Some c
  | Raise _ => None
  end.

Definition error_code (resp : JsonRpcResponse.t) : option Z :=
  code <$> JsonRpcResponse.error resp.

(** The request [{"method": "applyChanges", "params": {"file_path": p,
    "content": c}, "id": i}]. *)
Definition applyChanges_request (p c : string) (i : option RpcId)
  : JsonRpcRequest.t :=
  JsonRpcRequest.mk "2.0" "applyChanges"
    (Some {[ "file_path" := PStr p; "content" := PStr c ]}) i.

Definition getContext_request (ps : list string) (i : option RpcId)
  : JsonRpcRequest.t :=
  JsonRpcRequest.mk "2.0" "getContext"
    (Some {[ "file_paths" := PList (PStr <$> ps) ]}) i.

(** The state a handler starts from: the request has been logged. *)
Definition received {W} (request : JsonRpcRequest.t) (st : St W) : St W :=
  mkSt (world st)
    (logs st ++ [(INFO, "Received MCP request: "
                        +:+ JsonRpcRequest.method request)]).

(** The payload of the handler's own catch-all. *)
Definition error_applying (e : Exn) : ResultDump :=
  ApplyChangesDump
    {| success := false;
       message := Some ("Error applying changes: " +:+ exn_str e) |}.

(** A loop that stores [f p] under each [p] of a list. *)
Definition store_each {V} (f : string -> V) (d : list (string * V))
    (ps : list string) : list (string * V) :=
  foldl (fun d p => dict_setitem d p (f p)) d ps.

(** ** Recording providers *)

(** Providers that keep, beside the world they act on, the list of the
    commits asked of the repository. *)
Definition CommitCall : Type := string * list string.

Definition recording_io {W} (io : InputOutput W)
  : InputOutput (W * list CommitCall) :=
  {| read_text p wc :=
       let (r, w') := read_text io p wc.1 in (r, (w', wc.2));
     write_text p c wc :=
       let (r, w') := write_text io p c wc.1 in (r, (w', wc.2)) |}.

Definition recording_repo {W} (repo : GitRepo W)
  : GitRepo (W * list CommitCall) :=
  {| commit msg fs wc :=
       let (r, w') := commit repo msg fs wc.1 in
       (r, (w', wc.2 ++ [(msg, fs)])) |}.

(** ** Example worlds *)

(** A world for the examples: one file, one path that cannot be written,
    a repository that takes commits. *)
Definition permission_denied : Exn :=
  PyExn (OtherException "PermissionError")
    "[Errno 13] Permission denied: '/etc/motd'".

Definition example_world : MemWorld :=
  {| mem_files := {[ "a.txt" := "hello" ]};
     mem_unreadable := ∅;
     mem_unwritable := {[ "/etc/motd" := permission_denied ]};
     mem_commit_fault := None;
     mem_history := [] |}.

Definition mem_server : Server MemWorld :=
  run_server (Some mem_io) (Some mem_repo).

(** A world whose repository refuses every commit. *)
Definition locked_repo_world : MemWorld :=
  {| mem_files := {[ "a.txt" := "hello" ]};
     mem_unreadable := ∅;
     mem_unwritable := ∅;
     mem_commit_fault :=
       Some (PyExn (OtherException "GitCommandError") "index.lock exists");
     mem_history := [] |}.

(** ** A file store whose writes fail for a while

    A second instance of the I/O provider: the first [flaky_failures]
    writes raise (a file that is locked for a moment) and leave every
    file as it is, the later ones store their text. *)

Record FlakyWorld : Type := {
  flaky_files : gmap string string;
  flaky_failures : nat
}.

Definition flaky_content (w : FlakyWorld) (p : string) : option string :=
  flaky_files w !! p.

Definition resource_unavailable : Exn :=
  PyExn (OtherException "BlockingIOError")
    "[Errno 11] Resource temporarily unavailable".

Definition flaky_read_text (p : string) (w : FlakyWorld)
  : Outcome string * FlakyWorld :=
  match flaky_files w !! p with
  | Some c => (Return c, w)
  | None =>
      (Raise (PyExn FileNotFoundError
                ("[Errno 2] No such file or directory: '" +:+ p +:+ "'")),
       w)
  end.

Definition flaky_write_text (p c : string) (w : FlakyWorld)
  : Outcome unit * FlakyWorld :=
  match flaky_failures w with
  | S n =>
      (Raise resource_unavailable,
       {| flaky_files := flaky_files w; flaky_failures := n |})
  | O =>
      (Return tt,
       {| flaky_files := <[p := c]> (flaky_files w); flaky_failures := O |})
  end.

Definition flaky_io : InputOutput FlakyWorld :=
  {| read_text := flaky_read_text; write_text := flaky_write_text |}.

(** No repository is configured beside it. *)
Definition flaky_server : Server FlakyWorld := run_server (Some flaky_io) None.

(** One file, and a store whose next write fails. *)
Definition locked_once_world : FlakyWorld :=
  {| flaky_files := {[ "a.txt" := "hello" ]}; flaky_failures := 1 |}.

(** ** What a batch of reads leaves behind *)

(** The log record of one turn of the loop of [handle_get_context], for a
    read that gave [o]: nothing when it returned, a warning for a missing
    file, an error for any other failure. *)
Definition read_log (p : string) (o : Outcome string) : list LogRecord :=
  match o with
  | Return _ => []
  | Raise e =>
      if is_FileNotFoundError e then [(WARNING, "File not found: " +:+ p)]
      else [(ERROR, "Error reading file " +:+ p +:+ ": " +:+ exn_str e)]
  end.

(** The world after the provider has read the paths of [ps] in turn. *)
Definition read_all {W} (io : InputOutput W) (ps : list string) (w : W) : W :=
  foldl (fun w p => (read_text io p w).2) w ps.

(** A world in which no path can be read. *)
Definition unreadable_world : MemWorld :=
  {| mem_files := {[ "a.txt" := "hello" ]};
     mem_unreadable :=
       {[ "a.txt" := PyExn (OtherException "UnicodeDecodeError")
                       "invalid start byte" ]};
     mem_unwritable := ∅;
     mem_commit_fault := None;
     mem_history := [] |}.

(** * Properties *)

(** ** Evaluating the handlers *)

Ltac unfold_M :=
  unfold try_except, bind, ret, raise, lift, call, logger in *.

Section ApplyChanges.
Context {W : Type} (srv : Server W).
Implicit Types (params : gmap string PyVal) (st : St W) (e : Exn).

Lemma handle_apply_changes_invalid params st e :
  ApplyChangesParams_init params = Raise e ->
  handle_apply_changes srv params st
  = (Return (error_applying e),
     mkSt (world st)
       (logs st ++ [(ERROR, "Error in handle_apply_changes: " +:+ exn_str e)])).
Proof.
  intros Hinit. unfold handle_apply_changes. unfold_M.
  rewrite Hinit. reflexivity.
Qed.

Lemma handle_apply_changes_no_io params st p c :
  ApplyChangesParams_init params = Return {| file_path := p; content := c |} ->
  aider_io srv = None ->
  (handle_apply_changes srv params st).1
  = Return (error_applying (NoneType_has_no "write_text")).
Proof.
  intros Hinit Hio.
  unfold handle_apply_changes, aider_io_write_text. unfold_M.
  rewrite Hinit, Hio. reflexivity.
Qed.

Lemma handle_apply_changes_write_raises params st io p c e w1 :
  ApplyChangesParams_init params = Return {| file_path := p; content := c |} ->
  aider_io srv = Some io ->
  write_text io p c (world st) = (Raise e, w1) ->
  handle_apply_changes srv params st
  = (Return (error_applying e),
     mkSt w1
       ((logs st ++ [(INFO, "Writing changes to " +:+ p)])
        ++ [(ERROR, "Error in handle_apply_changes: " +:+ exn_str e)])).
Proof.
  intros Hinit Hio Hwrite.
  unfold handle_apply_changes, aider_io_write_text. unfold_M.
  rewrite Hinit, Hio. simpl. rewrite Hwrite. reflexivity.
Qed.

(** Once the write has returned, only the commit is left to decide the
    payload, and nothing after the commit touches the world. *)
Lemma handle_apply_changes_written params st io p c w1 :
  ApplyChangesParams_init params = Return {| file_path := p; content := c |} ->
  aider_io srv = Some io ->
  write_text io p c (world st) = (Return tt, w1) ->
  handle_apply_changes srv params st
  = let lg := logs st ++ [(INFO, "Writing changes to " +:+ p)] in
    match aider_git_repo srv with
    | None =>
        (Return (ApplyChangesDump
                   {| success := true;
                      message := Some ("Changes applied to " +:+ p
                                       +:+ " (no git repository)") |}),
         mkSt w1 lg)
    | Some repo =>
        let commit_message := "MCP: Apply changes to " +:+ basename p in
        let lg' :=
          lg ++ [(INFO, "Committing changes with message: '"
                        +:+ commit_message +:+ "'")] in
        match commit repo commit_message [p] w1 with
        | (Return _, w2) =>
            (Return (ApplyChangesDump
                       {| success := true;
                          message := Some ("Changes applied and committed to "
                                           +:+ p) |}),
             mkSt w2 lg')
        | (Raise e, w2) =>
            (Return (ApplyChangesDump
                       {| success := true;
                          message := Some ("Changes applied to " +:+ p
                                           +:+ " but not committed: "
                                           +:+ exn_str e) |}),
             mkSt w2
               (lg' ++ [(ERROR, "Error committing changes: " +:+ exn_str e)]))
        end
    end.
Proof.
  intros Hinit Hio Hwrite.
  unfold handle_apply_changes, aider_io_write_text, aider_git_repo_commit.
  unfold_M. rewrite Hinit, Hio. simpl. rewrite Hwrite.
  destruct (aider_git_repo srv) as [repo|]; simpl; [|reflexivity].
  destruct (commit repo _ _ w1) as [[[]|e] w2]; reflexivity.
Qed.

(** The handler returns on every input, and what it returns is an
    [ApplyChangesResult]. *)
Lemma handle_apply_changes_returns params st :
  exists r st',
    handle_apply_changes srv params st = (Return (ApplyChangesDump r), st').
Proof.
  destruct (ApplyChangesParams_init params) as [[p c]|e] eqn:Hinit.
  - destruct (aider_io srv) as [io|] eqn:Hio.
    + destruct (write_text io p c (world st)) as [[[]|e] w1] eqn:Hwrite.
      * rewrite (handle_apply_changes_written _ _ _ _ _ _ Hinit Hio Hwrite).
        simpl. destruct (aider_git_repo srv) as [repo|]; [|eauto].
        destruct (commit repo _ _ w1) as [[[]|e] w2]; eauto.
      * rewrite (handle_apply_changes_write_raises _ _ _ _ _ _ _ Hinit Hio Hwrite).
        unfold error_applying. eauto.
    + unfold handle_apply_changes, aider_io_write_text. unfold_M.
      rewrite Hinit, Hio. simpl. eauto.
  - rewrite (handle_apply_changes_invalid _ _ _ Hinit).
    unfold error_applying. eauto.
Qed.
End ApplyChanges.

(** ** Insertion-ordered dictionaries *)

Section Dict.
Context {V : Type}.
Implicit Types (d : list (string * V)) (k : string) (v : V).

Lemma dict_keys_setitem d k v :
  dict_keys (dict_setitem d k v)
  = if decide (k ∈ dict_keys d) then dict_keys d else dict_keys d ++ [k].
Proof.
  unfold dict_keys. induction d as [|[k' v'] d IH]; [reflexivity|].
  cbn [dict_setitem]. destruct (decide (k' = k)) as [->|Hne].
  - rewrite decide_True by (rewrite fmap_cons; left). reflexivity.
  - rewrite !fmap_cons, IH. cbn [fst].
    destruct (decide (k ∈ d.*1)) as [Hin|Hnin].
    + rewrite decide_True by (by right). reflexivity.
    + rewrite decide_False; [reflexivity|].
      intros [?|?]%elem_of_cons; congruence.
Qed.

Lemma dict_get_setitem_eq d k v : dict_get (dict_setitem d k v) k = Some v.
Proof.
  induction d as [|[k' v'] d IH]; simpl.
  - by rewrite decide_True.
  - destruct (decide (k' = k)) as [->|Hne]; simpl.
    + by rewrite decide_True.
    + by rewrite decide_False.
Qed.

Lemma dict_get_setitem_ne d k k' v :
  k ≠ k' -> dict_get (dict_setitem d k v) k' = dict_get d k'.
Proof.
  intros Hne. induction d as [|[k0 v0] d IH]; simpl.
  - by rewrite decide_False.
  - destruct (decide (k0 = k)) as [->|Hne0]; simpl.
    + by rewrite !decide_False.
    + destruct (decide (k0 = k')); [reflexivity | apply IH].
Qed.

Lemma dict_get_store_each f d ps k :
  dict_get (store_each f d ps) k
  = if decide (k ∈ ps) then Some (f k) else dict_get d k.
Proof.
  unfold store_each. revert d.
  induction ps as [|p ps IH]; intros d; [reflexivity|].
  cbn [foldl]. rewrite IH.
  destruct (decide (k ∈ ps)) as [Hin|Hnin].
  - rewrite decide_True; [reflexivity | by right].
  - destruct (decide (p = k)) as [->|Hne].
    + rewrite decide_True; [apply dict_get_setitem_eq | left].
    + rewrite decide_False.
      * by apply dict_get_setitem_ne.
      * intros [?|?]%elem_of_cons; congruence.
Qed.

Lemma dict_keys_store_each f d ps :
  dict_keys (store_each f d ps)
  = dict_keys d ++ filter (fun k => k ∉ dict_keys d) (first_occurrences ps).
Proof.
  unfold store_each. revert d.
  induction ps as [|p ps IH]; intros d; cbn [foldl first_occurrences].
  - by rewrite filter_nil, app_nil_r.
  - rewrite IH, dict_keys_setitem.
    destruct (decide (p ∈ dict_keys d)) as [Hin|Hnin].
    + rewrite filter_cons_False by tauto.
      rewrite list_filter_filter. f_equal.
      apply list_filter_iff. intros k. split; [|tauto].
      intros Hk. split; [done | congruence].
    + rewrite filter_cons_True by done.
      rewrite list_filter_filter, <- app_assoc. simpl. do 2 f_equal.
      apply list_filter_iff. intros k.
      rewrite elem_of_app, list_elem_of_singleton. tauto.
Qed.
End Dict.

Lemma filter_all {A} (P : A -> Prop) `{!forall x, Decision (P x)} (l : list A) :
  Forall P l -> filter P l = l.
Proof.
  induction 1 as [|x l Hx _ IH]; [reflexivity|].
  by rewrite filter_cons_True, IH.
Qed.

Lemma elem_of_first_occurrences l x : x ∈ first_occurrences l <-> x ∈ l.
Proof.
  induction l as [|y l IH]; simpl; [reflexivity|].
  rewrite !elem_of_cons, list_elem_of_filter, IH.
  destruct (decide (x = y)); tauto.
Qed.

Lemma NoDup_first_occurrences l : NoDup (first_occurrences l).
Proof.
  induction l as [|y l IH]; simpl; [constructor|].
  apply NoDup_cons. split.
  - rewrite list_elem_of_filter. tauto.
  - by apply NoDup_filter.
Qed.

Lemma first_occurrences_NoDup l : NoDup l -> first_occurrences l = l.
Proof.
  induction 1 as [|x l Hx _ IH]; simpl; [reflexivity|].
  rewrite IH. f_equal. apply filter_all, Forall_forall.
  intros y Hy ->. done.
Qed.

(** ** [basename] *)

Lemma rfind_from_absent c s pos found :
  has_char c s = false -> rfind_from c s pos found = found.
Proof.
  revert pos found. induction s as [|a s IH]; intros pos found; simpl.
  - reflexivity.
  - intros [Ha Hs]%orb_false_iff. rewrite Ha. by apply IH.
Qed.

Lemma rfind_from_last c s1 s2 pos found :
  has_char c s2 = false ->
  rfind_from c (s1 +:+ String c s2) pos found
  = pos + Z.of_nat (String.length s1).
Proof.
  intros Hs2. revert pos found.
  induction s1 as [|a s1 IH]; intros pos found.
  - change ("" +:+ String c s2) with (String c s2).
    cbn [rfind_from]. rewrite Ascii.eqb_refl, rfind_from_absent by done.
    cbn [String.length]. lia.
  - change (String a s1 +:+ String c s2) with (String a (s1 +:+ String c s2)).
    cbn [rfind_from String.length]. rewrite IH. lia.
Qed.

Lemma slice_from_app s1 s2 :
  slice_from (String.length s1) (s1 +:+ s2) = s2.
Proof.
  induction s1 as [|a s1 IH]; [by destruct s2 | exact IH].
Qed.

(** The base name of [dir/name] is [name], and a path without separator
    is its own base name. *)
Lemma basename_join dir name :
  has_char "/" name = false -> basename (dir +:+ "/" +:+ name) = name.
Proof.
  intros Hname. unfold basename, rfind.
  change ("/" +:+ name) with (String "/" name).
  rewrite rfind_from_last by done.
  replace (Z.to_nat (0 + Z.of_nat (String.length dir) + 1))
    with (S (String.length dir)) by lia.
  revert name Hname. induction dir as [|a dir IH]; intros name Hname.
  - reflexivity.
  - exact (IH name Hname).
Qed.

Lemma basename_plain name :
  has_char "/" name = false -> basename name = name.
Proof.
  intros Hname. unfold basename, rfind.
  by rewrite rfind_from_absent.
Qed.

(** ** Evaluating [handle_get_context] *)

Section GetContext.
Context {W : Type} (srv : Server W) (io : InputOutput W).
Hypothesis Hio : aider_io srv = Some io.
Implicit Types (st : St W) (fc : list (string * option string)).

(** One turn of the loop stores the entry of what the read gave, and
    never raises. *)
Lemma read_one_eval fc p st :
  exists lg,
    read_one srv fc p st
    = (Return (dict_setitem fc p (file_entry (read_text io p (world st)).1)),
       mkSt (read_text io p (world st)).2 lg).
Proof.
  unfold read_one, aider_io_read_text. unfold_M. rewrite Hio.
  destruct (read_text io p (world st)) as [[c|e] w']; simpl; [eauto|].
  destruct (is_FileNotFoundError e); simpl; eauto.
Qed.

Lemma read_each_eval (w0 : W) ps fc st :
  StableReads io ->
  (forall p, (read_text io p (world st)).1 = (read_text io p w0).1) ->
  exists st',
    read_each srv ps fc st
    = (Return (store_each (fun p => file_entry (read_text io p w0).1) fc ps),
       st').
Proof.
  intros Hstable. revert fc st.
  induction ps as [|p ps IH]; intros fc st Hst; cbn [read_each].
  - unfold ret. eauto.
  - unfold bind. destruct (read_one_eval fc p st) as [lg ->].
    rewrite Hst. apply IH. intros q. cbn [world].
    by rewrite Hstable, Hst.
Qed.

(** The loop returns whatever the reads do, and its keys do not depend
    on what was read. *)
Lemma read_each_keys ps fc st :
  exists fs st',
    read_each srv ps fc st = (Return fs, st')
    /\ dict_keys fs
       = dict_keys fc
         ++ filter (fun k => k ∉ dict_keys fc) (first_occurrences ps).
Proof.
  assert (Hgen : forall fc0,
    dict_keys fc0 = dict_keys fc ->
    exists fs st',
      read_each srv ps fc st = (Return fs, st')
      /\ dict_keys fs = dict_keys (store_each (fun _ => None) fc0 ps)).
  { revert fc st. induction ps as [|p ps IH]; intros fc st fc0 Hfc0;
      cbn [read_each].
    - unfold ret. by eauto.
    - unfold bind. destruct (read_one_eval fc p st) as [lg ->].
      unfold store_each. cbn [foldl]. apply IH.
      by rewrite !dict_keys_setitem, Hfc0. }
  destruct (Hgen fc eq_refl) as (fs & st' & Hrun & Hkeys).
  exists fs, st'. split; [exact Hrun|].
  by rewrite Hkeys, dict_keys_store_each.
Qed.

Lemma handle_get_context_eval params ps st :
  GetContextParams_init params = Return {| file_paths := ps |} ->
  exists fs st',
    handle_get_context srv params st
    = (Return (GetContextDump {| files := fs |}), st')
    /\ dict_keys fs = first_occurrences ps
    /\ (StableReads io ->
        fs = store_each (fun p => file_entry (read_text io p (world st)).1)
               [] ps).
Proof.
  intros Hinit. unfold handle_get_context.
  unfold try_except, bind at 1, lift. rewrite Hinit. unfold bind.
  cbn [file_paths].
  destruct (read_each_keys ps [] st) as (fs & st' & Hrun & Hkeys).
  rewrite Hrun. unfold ret. exists fs, st'. split; [reflexivity|]. split.
  - rewrite Hkeys. cbn [dict_keys fmap list_fmap app].
    apply filter_all, Forall_forall. intros k _. apply not_elem_of_nil.
  - intros Hstable.
    destruct (read_each_eval (world st) ps [] st Hstable) as [st'' Heval];
      [done|].
    congruence.
Qed.
End GetContext.

(** Malformed parameters: the failure is logged and raised again. *)
Lemma handle_get_context_invalid {W} (srv : Server W) params st e :
  GetContextParams_init params = Raise e ->
  handle_get_context srv params st
  = (Raise e,
     mkSt (world st)
       (logs st ++ [(ERROR, "Error in handle_get_context: " +:+ exn_str e)])).
Proof.
  intros Hinit. unfold handle_get_context. unfold_M. by rewrite Hinit.
Qed.

(** ** Evaluating the dispatcher *)

Section Dispatcher.
Context {W : Type} (srv : Server W).
Implicit Types (request : JsonRpcRequest.t) (st : St W).

Lemma handle_mcp_request_applyChanges request st :
  JsonRpcRequest.method request = "applyChanges" ->
  is_not_None (aider_io srv) = true ->
  handle_mcp_request srv request st
  = match handle_apply_changes srv
            (default ∅ (JsonRpcRequest.params request)) (received request st)
    with
    | (Return r, st') =>
        (Return (result_response r (JsonRpcRequest.id request)), st')
    | (Raise e, st') =>
        (Return (error_response (-32000) ("Server error: " +:+ exn_str e)
                   (JsonRpcRequest.id request)),
         mkSt (world st')
           (logs st' ++ [(ERROR, "Error handling request: " +:+ exn_str e)]))
    end.
Proof.
  intros Hm Hio. unfold handle_mcp_request, received.
  rewrite Hm, Hio. cbn [negb]. unfold logger at 1, bind at 1.
  rewrite decide_False by done. rewrite decide_False by done.
  rewrite decide_True by done.
  unfold try_except, bind.
  destruct (handle_apply_changes _ _ _) as [[r|e] st']; reflexivity.
Qed.

Lemma handle_mcp_request_getContext request st :
  JsonRpcRequest.method request = "getContext" ->
  is_not_None (aider_io srv) = true ->
  handle_mcp_request srv request st
  = match handle_get_context srv
            (default ∅ (JsonRpcRequest.params request)) (received request st)
    with
    | (Return r, st') =>
        (Return (result_response r (JsonRpcRequest.id request)), st')
    | (Raise e, st') =>
        (Return (error_response (-32000) ("Server error: " +:+ exn_str e)
                   (JsonRpcRequest.id request)),
         mkSt (world st')
           (logs st' ++ [(ERROR, "Error handling request: " +:+ exn_str e)]))
    end.
Proof.
  intros Hm Hio. unfold handle_mcp_request, received.
  rewrite Hm, Hio. cbn [negb]. unfold logger at 1, bind at 1.
  rewrite decide_False by done. rewrite decide_True by done.
  unfold try_except, bind.
  destruct (handle_get_context _ _ _) as [[r|e] st']; reflexivity.
Qed.

(** The dispatcher returns a response on every path, and the response
    is one of the two shapes built by [result_response] and
    [error_response], carrying the identifier of the request. *)
Lemma handle_mcp_request_returns request st :
  exists resp st',
    handle_mcp_request srv request st = (Return resp, st')
    /\ ((exists r, resp = result_response r (JsonRpcRequest.id request))
        \/ (exists c msg,
              resp = error_response c msg (JsonRpcRequest.id request))).
Proof.
  unfold handle_mcp_request. unfold logger at 1, bind at 1.
  destruct (decide (JsonRpcRequest.method request = "")) as [Hm|Hm].
  { unfold ret. eauto 8. }
  destruct (negb (is_not_None (aider_io srv))).
  { unfold ret. eauto 8. }
  unfold try_except.
  destruct (decide (JsonRpcRequest.method request = "getContext")) as [Hg|Hg].
  { unfold bind at 1.
    destruct (handle_get_context _ _ _) as [[r|e] st']; unfold_M; eauto 8. }
  destruct (decide (JsonRpcRequest.method request = "applyChanges")) as [Ha|Ha].
  { unfold bind at 1.
    destruct (handle_apply_changes _ _ _) as [[r|e] st']; unfold_M; eauto 8. }
  unfold ret. eauto 8.
Qed.
End Dispatcher.

(** ** Requests the dispatcher answers without a handler result *)

(** The two request builders give parameters that validate. *)
Lemma applyChanges_request_validates p c i :
  ApplyChangesParams_init
    (default ∅ (JsonRpcRequest.params (applyChanges_request p c i)))
  = Return {| file_path := p; content := c |}.
Proof. reflexivity. Qed.

Lemma as_str_list_PStr ps : as_str_list (PList (PStr <$> ps)) = Some ps.
Proof.
  unfold as_str_list. induction ps as [|p ps IH]; [reflexivity|].
  cbn. cbn in IH. by rewrite IH.
Qed.

Lemma getContext_request_validates ps i :
  GetContextParams_init
    (default ∅ (JsonRpcRequest.params (getContext_request ps i)))
  = Return {| file_paths := ps |}.
Proof.
  unfold GetContextParams_init, getContext_request.
  cbn [JsonRpcRequest.params default from_option id].
  rewrite lookup_singleton_eq. cbn [mbind option_bind].
  by rewrite as_str_list_PStr.
Qed.

(** A method that is neither empty nor one of the two known ones. *)
Lemma unknown_method_not_found {W} (srv : Server W)
    (request : JsonRpcRequest.t) (st : St W) :
  JsonRpcRequest.method request <> "" ->
  JsonRpcRequest.method request <> "getContext" ->
  JsonRpcRequest.method request <> "applyChanges" ->
  is_not_None (aider_io srv) = true ->
  handle_mcp_request srv request st
  = (Return
       (error_response (-32601)
          ("Method '" +:+ JsonRpcRequest.method request +:+ "' not found")
          (JsonRpcRequest.id request)),
     received request st).
Proof.
  intros H0 Hg Ha Hio. unfold handle_mcp_request.
  unfold logger at 1, bind at 1. rewrite Hio.
  rewrite !decide_False by done. reflexivity.
Qed.

(** Parameters of getContext that do not validate reach the top-level
    handler of the dispatcher. *)
Lemma getContext_invalid_params_server_error {W} (srv : Server W)
    (request : JsonRpcRequest.t) (st : St W) (e : Exn) :
  JsonRpcRequest.method request = "getContext" ->
  is_not_None (aider_io srv) = true ->
  GetContextParams_init (default ∅ (JsonRpcRequest.params request)) = Raise e ->
  (handle_mcp_request srv request st).1
  = Return (error_response (-32000) ("Server error: " +:+ exn_str e)
              (JsonRpcRequest.id request)).
Proof.
  intros Hm Hio Hinit.
  rewrite handle_mcp_request_getContext by done.
  by rewrite (handle_get_context_invalid srv _ _ _ Hinit).
Qed.

(** ** The in-memory providers are a file store *)

Lemma mem_file_store : FileStore mem_io mem_content.
Proof.
  split; intros p c w; unfold mem_content; cbn [write_text mem_io];
    unfold mem_write_text; destruct (mem_unwritable w !! p).
  - discriminate.
  - intros w' [= <-]. cbn [mem_files]. apply lookup_insert_eq.
  - by intros e' w' [= _ <-].
  - discriminate.
Qed.

Lemma mem_keeps_files : KeepsFiles (Some mem_repo) mem_content.
Proof.
  intros r msg fs w p [= <-]. unfold mem_content. cbn [commit mem_repo].
  unfold mem_commit. by destruct (mem_commit_fault w).
Qed.

Lemma mem_stable_reads : StableReads mem_io.
Proof.
  intros p q w. cbn [read_text mem_io]. f_equal. f_equal.
  unfold mem_read_text.
  destruct (mem_unreadable w !! q); [reflexivity|].
  by destruct (mem_files w !! q).
Qed.

(** ** A failing write in [applyChanges] *)

(** C1, as stated, fails: the write to [/etc/motd] raises, and the
    response is an [ApplyChangesResult] payload with no error object. *)
Lemma applyChanges_write_failure_is_payload :
  let request := applyChanges_request "/etc/motd" "x" (Some (IdInt 7)) in
  let st := mkSt example_world [] in
  (write_text mem_io "/etc/motd" "x" (world st)).1 = Raise permission_denied
  /\ exists resp,
       (handle_mcp_request mem_server request st).1 = Return resp
       /\ error_code resp = None
       /\ error_code resp <> Some (-32000)
       /\ JsonRpcResponse.result resp
          = Some (ApplyChangesDump
                    {| success := false;
                       message :=
                         Some "Error applying changes: [Errno 13] Permission denied: '/etc/motd'" |}).
Proof.
  split; [reflexivity|]. eexists. split; [vm_compute; reflexivity|].
  repeat split. discriminate.
Qed.

(** C1 (amended): when the provider's write raises, the handler's own
    catch-all absorbs the failure; the dispatcher answers with a result,
    the [ApplyChangesResult] with [success] false and the message
    ["Error applying changes: "] followed by the description of the
    failure, and with no error object.  The world is the one the failed
    write left. *)
Theorem applyChanges_write_failure_absorbed {W} (srv : Server W)
    (io : InputOutput W) (request : JsonRpcRequest.t) (p c : string)
    (st : St W) (e : Exn) (w1 : W) :
  JsonRpcRequest.method request = "applyChanges" ->
  aider_io srv = Some io ->
  ApplyChangesParams_init (default ∅ (JsonRpcRequest.params request))
  = Return {| file_path := p; content := c |} ->
  write_text io p c (world st) = (Raise e, w1) ->
  exists lg,
    handle_mcp_request srv request st
    = (Return
         (JsonRpcResponse.mk "2.0"
            (Some (ApplyChangesDump
                     {| success := false;
                        message := Some ("Error applying changes: "
                                         +:+ exn_str e) |}))
            None
            (JsonRpcRequest.id request)),
       mkSt w1 lg).
Proof.
  intros Hm Hio Hinit Hwrite.
  rewrite handle_mcp_request_applyChanges by (by rewrite ?Hio).
  erewrite handle_apply_changes_write_raises by eauto.
  unfold error_applying, result_response. eauto.
Qed.

Lemma applyChanges_write_failure_absorbed_witness :
  exists lg,
    handle_mcp_request mem_server
      (applyChanges_request "/etc/motd" "x" (Some (IdInt 7)))
      (mkSt example_world [])
    = (Return
         (JsonRpcResponse.mk "2.0"
            (Some (ApplyChangesDump
                     {| success := false;
                        message := Some ("Error applying changes: "
                                         +:+ exn_str permission_denied) |}))
            None
            (Some (IdInt 7))),
       mkSt example_world lg).
Proof.
  apply (applyChanges_write_failure_absorbed mem_server mem_io
           (applyChanges_request "/etc/motd" "x" (Some (IdInt 7)))
           "/etc/motd" "x" (mkSt example_world []) permission_denied
           example_world).
  - reflexivity.
  - reflexivity.
  - vm_compute. reflexivity.
  - reflexivity.
Defined.

(** ** Requests before the I/O provider is set *)

(** C2, as stated, fails: with the provider unset, a request whose
    method is empty is answered with -32600, not -32603. *)
Lemma uninitialized_empty_method_invalid_request :
  let srv : Server MemWorld := run_server None None in
  let request := JsonRpcRequest.mk "2.0" "" None (Some (IdInt 1)) in
  aider_io srv = None
  /\ exists resp,
       (handle_mcp_request srv request (mkSt example_world [])).1 = Return resp
       /\ error_code resp = Some (-32600)
       /\ error_code resp <> Some (-32603).
Proof.
  split; [reflexivity|]. eexists. split; [vm_compute; reflexivity|].
  split; [reflexivity | discriminate].
Qed.

(** C2 (amended): while the I/O provider is unset, every request whose
    method is not empty is answered with error -32603, whether or not
    the method is a recognized one. *)
Theorem uninitialized_io_internal_error {W} (srv : Server W)
    (request : JsonRpcRequest.t) (st : St W) :
  aider_io srv = None ->
  JsonRpcRequest.method request <> "" ->
  handle_mcp_request srv request st
  = (Return
       (JsonRpcResponse.mk "2.0" None
          (Some {| code := -32603; error_message := "Aider IO not initialized" |})
          (JsonRpcRequest.id request)),
     received request st).
Proof.
  intros Hio Hm. unfold handle_mcp_request. unfold logger at 1, bind at 1.
  rewrite decide_False by done. rewrite Hio. reflexivity.
Qed.

Lemma uninitialized_io_internal_error_witness :
  handle_mcp_request (run_server None None)
    (JsonRpcRequest.mk "2.0" "noSuchMethod" None (Some (IdStr "r1")))
    (mkSt example_world [])
  = (Return
       (JsonRpcResponse.mk "2.0" None
          (Some {| code := -32603; error_message := "Aider IO not initialized" |})
          (Some (IdStr "r1"))),
     received (JsonRpcRequest.mk "2.0" "noSuchMethod" None (Some (IdStr "r1")))
       (mkSt example_world [])).
Proof.
  apply (uninitialized_io_internal_error (run_server None None)
           (JsonRpcRequest.mk "2.0" "noSuchMethod" None (Some (IdStr "r1")))
           (mkSt example_world [])).
  - reflexivity.
  - discriminate.
Defined.

(** ** The files of [getContext] *)

(** C3, as stated, fails: a request that names the same path twice lists
    two paths and gets one key. *)
Lemma getContext_repeated_path_one_key :
  let request := getContext_request ["a.txt"; "a.txt"] (Some (IdInt 3)) in
  GetContextParams_init (default ∅ (JsonRpcRequest.params request))
  = Return {| file_paths := ["a.txt"; "a.txt"] |}
  /\ exists fs,
       (handle_mcp_request mem_server request (mkSt example_world [])).1
       = Return (result_response (GetContextDump {| files := fs |})
                   (Some (IdInt 3)))
       /\ fs = [("a.txt", Some "hello")]
       /\ length fs <> length ["a.txt"; "a.txt"].
Proof.
  split; [vm_compute; reflexivity|]. eexists.
  split; [vm_compute; reflexivity|]. split; [reflexivity | discriminate].
Qed.

(** C3 (amended): for a getContext request with the paths [ps],
    [result.files] has one key for each distinct path of [ps], so every
    requested path is a key exactly once and no other key occurs; the keys
    stand in the order in which the paths first occur, and there are as
    many keys as paths when no path is repeated.  With reads that do not
    disturb each other, a path whose read raises maps to null and a path
    whose read returns maps to the text read. *)
Theorem getContext_files {W} (srv : Server W) (io : InputOutput W)
    (request : JsonRpcRequest.t) (ps : list string) (st : St W) :
  JsonRpcRequest.method request = "getContext" ->
  aider_io srv = Some io ->
  GetContextParams_init (default ∅ (JsonRpcRequest.params request))
  = Return {| file_paths := ps |} ->
  exists fs st',
    handle_mcp_request srv request st
    = (Return (result_response (GetContextDump {| files := fs |})
                 (JsonRpcRequest.id request)),
       st')
    /\ dict_keys fs = first_occurrences ps
    /\ NoDup (dict_keys fs)
    /\ (forall p, p ∈ dict_keys fs <-> p ∈ ps)
    /\ (NoDup ps -> dict_keys fs = ps /\ length fs = length ps)
    /\ (StableReads io ->
        (forall p c,
           p ∈ ps -> (read_text io p (world st)).1 = Return c ->
           dict_get fs p = Some (Some c))
        /\ (forall p e,
              p ∈ ps -> (read_text io p (world st)).1 = Raise e ->
              dict_get fs p = Some None)).
Proof.
  intros Hm Hio Hinit.
  rewrite handle_mcp_request_getContext by (by rewrite ?Hio).
  destruct (handle_get_context_eval srv io Hio _ ps (received request st)
              Hinit) as (fs & st' & -> & Hkeys & Hvalues).
  cbn [received world] in Hvalues.
  exists fs, st'. split; [reflexivity|].
  split; [exact Hkeys|]. rewrite Hkeys.
  split; [apply NoDup_first_occurrences|].
  split; [intros p; apply elem_of_first_occurrences|].
  split.
  { intros Hnd. rewrite first_occurrences_NoDup by done. split; [done|].
    rewrite <- (first_occurrences_NoDup ps) by done.
    rewrite <- Hkeys. unfold dict_keys. by rewrite length_fmap. }
  intros Hstable. rewrite (Hvalues Hstable).
  split; intros p x Hp Hread; rewrite dict_get_store_each, decide_True by done;
    by rewrite Hread.
Qed.

Lemma getContext_files_witness :
  exists fs st',
    handle_mcp_request mem_server
      (getContext_request ["a.txt"; "missing.txt"; "a.txt"] None)
      (mkSt example_world [])
    = (Return (result_response (GetContextDump {| files := fs |}) None), st')
    /\ dict_keys fs = ["a.txt"; "missing.txt"]
    /\ dict_get fs "a.txt" = Some (Some "hello")
    /\ dict_get fs "missing.txt" = Some None.
Proof.
  destruct (getContext_files mem_server mem_io
              (getContext_request ["a.txt"; "missing.txt"; "a.txt"] None)
              ["a.txt"; "missing.txt"; "a.txt"] (mkSt example_world []))
    as (fs & st' & Hrun & Hkeys & _ & _ & _ & Hvalues).
  - reflexivity.
  - reflexivity.
  - vm_compute. reflexivity.
  - destruct (Hvalues mem_stable_reads) as [Hok Hfail].
    exists fs, st'. split; [exact Hrun|]. split; [exact Hkeys|]. split.
    + apply Hok; [left | vm_compute; reflexivity].
    + eapply Hfail; [right; left | vm_compute; reflexivity].
Defined.

(** ** The envelope of every response *)

(** C4: the dispatcher returns a response for every request, and the
    response carries the identifier of the request; a request without
    identifier gets a response whose identifier is null. *)
Theorem response_id_echoes_request_id {W} (srv : Server W)
    (request : JsonRpcRequest.t) (st : St W) :
  exists resp st',
    handle_mcp_request srv request st = (Return resp, st')
    /\ JsonRpcResponse.id resp = JsonRpcRequest.id request
    /\ (JsonRpcRequest.id request = None -> JsonRpcResponse.id resp = None).
Proof.
  destruct (handle_mcp_request_returns srv request st)
    as (resp & st' & Hrun & [[r ->]|(c & msg & ->)]);
    do 2 eexists; (split; [exact Hrun|]); split; auto.
Qed.

(** C5: a request whose method is empty is answered with error -32600,
    "Invalid Request", under the identifier of the request (null when it
    has none), whatever the state of the providers. *)
Theorem empty_method_invalid_request {W} (srv : Server W)
    (request : JsonRpcRequest.t) (st : St W) :
  JsonRpcRequest.method request = "" ->
  handle_mcp_request srv request st
  = (Return
       (JsonRpcResponse.mk "2.0" None
          (Some {| code := -32600; error_message := "Invalid Request" |})
          (JsonRpcRequest.id request)),
     received request st).
Proof.
  intros Hm. unfold handle_mcp_request. unfold logger at 1, bind at 1.
  rewrite decide_True by done. reflexivity.
Qed.

Lemma empty_method_invalid_request_witness :
  handle_mcp_request mem_server (JsonRpcRequest.mk "2.0" "" None None)
    (mkSt example_world [])
  = (Return
       (JsonRpcResponse.mk "2.0" None
          (Some {| code := -32600; error_message := "Invalid Request" |})
          None),
     received (JsonRpcRequest.mk "2.0" "" None None) (mkSt example_world [])).
Proof.
  apply (empty_method_invalid_request mem_server
           (JsonRpcRequest.mk "2.0" "" None None) (mkSt example_world [])).
  reflexivity.
Defined.

(** C8: every response of the dispatcher has either a result and no
    error, or an error and no result. *)
Theorem result_and_error_exclusive {W} (srv : Server W)
    (request : JsonRpcRequest.t) (st : St W) :
  exists resp st',
    handle_mcp_request srv request st = (Return resp, st')
    /\ ((is_Some (JsonRpcResponse.result resp)
         /\ JsonRpcResponse.error resp = None)
        \/ (JsonRpcResponse.result resp = None
            /\ is_Some (JsonRpcResponse.error resp))).
Proof.
  destruct (handle_mcp_request_returns srv request st)
    as (resp & st' & Hrun & [[r ->]|(c & msg & ->)]);
    do 2 eexists; (split; [exact Hrun|]); [left|right]; split; eauto.
Qed.

(** ** Commits of [applyChanges] *)

(** C6: with a repository configured, when the write returns and the
    commit returns, the repository has been asked for one commit, of the
    file list that holds just the written path, under the message
    ["MCP: Apply changes to "] followed by the base name of the path; the
    response is a result with [success] true whose message says that the
    changes were applied and committed. *)
Theorem applyChanges_commits_the_changed_path {W} (io : InputOutput W)
    (repo : GitRepo W) (request : JsonRpcRequest.t) (p c : string)
    (w0 w1 w2 : W) (calls : list CommitCall) (lg0 : list LogRecord) :
  JsonRpcRequest.method request = "applyChanges" ->
  ApplyChangesParams_init (default ∅ (JsonRpcRequest.params request))
  = Return {| file_path := p; content := c |} ->
  write_text io p c w0 = (Return tt, w1) ->
  commit repo ("MCP: Apply changes to " +:+ basename p) [p] w1
  = (Return tt, w2) ->
  exists lg,
    handle_mcp_request
      (run_server (Some (recording_io io)) (Some (recording_repo repo)))
      request (mkSt (w0, calls) lg0)
    = (Return
         (JsonRpcResponse.mk "2.0"
            (Some (ApplyChangesDump
                     {| success := true;
                        message := Some ("Changes applied and committed to "
                                         +:+ p) |}))
            None
            (JsonRpcRequest.id request)),
       mkSt (w2, calls ++ [("MCP: Apply changes to " +:+ basename p, [p])]) lg).
Proof.
  intros Hm Hinit Hwrite Hcommit.
  rewrite handle_mcp_request_applyChanges by done.
  erewrite handle_apply_changes_written; eauto; cycle 1.
  { cbn. rewrite Hwrite. reflexivity. }
  cbn. rewrite Hcommit. eauto.
Qed.

Lemma applyChanges_commits_the_changed_path_witness :
  exists lg w2,
    handle_mcp_request
      (run_server (Some (recording_io mem_io)) (Some (recording_repo mem_repo)))
      (applyChanges_request "src/pkg/main.py" "print(1)" (Some (IdInt 2)))
      (mkSt (example_world, []) [])
    = (Return
         (JsonRpcResponse.mk "2.0"
            (Some (ApplyChangesDump
                     {| success := true;
                        message :=
                          Some "Changes applied and committed to src/pkg/main.py" |}))
            None
            (Some (IdInt 2))),
       mkSt (w2, [("MCP: Apply changes to main.py", ["src/pkg/main.py"])]) lg).
Proof.
  destruct (applyChanges_commits_the_changed_path mem_io mem_repo
              (applyChanges_request "src/pkg/main.py" "print(1)" (Some (IdInt 2)))
              "src/pkg/main.py" "print(1)" example_world
              (mem_write_text "src/pkg/main.py" "print(1)" example_world).2
              (mem_commit "MCP: Apply changes to main.py" ["src/pkg/main.py"]
                 (mem_write_text "src/pkg/main.py" "print(1)" example_world).2).2
              [] []) as [lg Hrun].
  - reflexivity.
  - vm_compute. reflexivity.
  - reflexivity.
  - reflexivity.
  - eexists lg, _. exact Hrun.
Defined.

(** ** The written file *)

Section WrittenFile.
Context {W : Type} (srv : Server W) (io : InputOutput W).
Context (content_of : W -> string -> option string).
Context `{!FileStore io content_of} `{!KeepsFiles (aider_git_repo srv) content_of}.
Hypothesis Hio : aider_io srv = Some io.

(** What the target file holds after an [applyChanges] request: the new
    text when the write returned, what it held before when the write
    raised.  Nothing the handler does after the write changes it. *)
Lemma applyChanges_content (request : JsonRpcRequest.t) (p c : string)
    (st : St W) :
  JsonRpcRequest.method request = "applyChanges" ->
  ApplyChangesParams_init (default ∅ (JsonRpcRequest.params request))
  = Return {| file_path := p; content := c |} ->
  content_of (world (handle_mcp_request srv request st).2) p
  = match (write_text io p c (world st)).1 with
    | Return _ => Some c
    | Raise _ => content_of (world st) p
    end.
Proof.
  intros Hm Hinit.
  rewrite handle_mcp_request_applyChanges by (by rewrite ?Hio).
  destruct (write_text io p c (world st)) as [[[]|e] w1] eqn:Hwrite; cbn [fst].
  - erewrite handle_apply_changes_written by eauto. cbn zeta.
    pose proof (write_text_stores _ _ _ _ Hwrite) as Hw1.
    destruct (aider_git_repo srv) as [repo|] eqn:Hrepo; [|exact Hw1].
    pose proof (commit_keeps_files repo
                  ("MCP: Apply changes to " +:+ basename p) [p] w1 p eq_refl)
      as Hkeep.
    destruct (commit repo _ _ w1) as [[[]|e] w2]; cbn in *; congruence.
  - erewrite handle_apply_changes_write_raises by eauto. cbn.
    eapply write_text_failed, Hwrite.
Qed.
End WrittenFile.

(** C7: when the write returns and the commit of the configured
    repository raises, the response is a result with [success] true whose
    message says that the changes were applied but not committed and ends
    with the description of the failure; the failure is logged as an
    error, and the target file holds the new text when the request is
    done. *)
Theorem applyChanges_commit_failure_keeps_write {W} (srv : Server W)
    (io : InputOutput W) (repo : GitRepo W)
    (content_of : W -> string -> option string)
    (request : JsonRpcRequest.t) (p c : string) (st : St W) (e : Exn)
    (w1 w2 : W) :
  FileStore io content_of ->
  KeepsFiles (aider_git_repo srv) content_of ->
  JsonRpcRequest.method request = "applyChanges" ->
  aider_io srv = Some io ->
  aider_git_repo srv = Some repo ->
  ApplyChangesParams_init (default ∅ (JsonRpcRequest.params request))
  = Return {| file_path := p; content := c |} ->
  write_text io p c (world st) = (Return tt, w1) ->
  commit repo ("MCP: Apply changes to " +:+ basename p) [p] w1
  = (Raise e, w2) ->
  exists st',
    handle_mcp_request srv request st
    = (Return
         (JsonRpcResponse.mk "2.0"
            (Some (ApplyChangesDump
                     {| success := true;
                        message := Some ("Changes applied to " +:+ p
                                         +:+ " but not committed: "
                                         +:+ exn_str e) |}))
            None
            (JsonRpcRequest.id request)),
       st')
    /\ world st' = w2
    /\ last (logs st')
       = Some (ERROR, "Error committing changes: " +:+ exn_str e)
    /\ content_of (world st') p = Some c.
Proof.
  intros Hstore Hkeeps Hm Hio Hrepo Hinit Hwrite Hcommit.
  pose proof (applyChanges_content srv io content_of Hio request p c st
                Hm Hinit) as Hcontent.
  rewrite Hwrite in Hcontent. cbn [fst] in Hcontent. revert Hcontent.
  rewrite handle_mcp_request_applyChanges by (by rewrite ?Hio).
  erewrite handle_apply_changes_written by eauto. cbn zeta.
  rewrite Hrepo, Hcommit. intros Hcontent.
  eexists. split; [reflexivity|]. split; [reflexivity|].
  split; [apply last_snoc | exact Hcontent].
Qed.

Lemma applyChanges_commit_failure_keeps_write_witness :
  exists st',
    handle_mcp_request mem_server
      (applyChanges_request "a.txt" "bye" (Some (IdInt 4)))
      (mkSt locked_repo_world [])
    = (Return
         (JsonRpcResponse.mk "2.0"
            (Some (ApplyChangesDump
                     {| success := true;
                        message :=
                          Some "Changes applied to a.txt but not committed: index.lock exists" |}))
            None
            (Some (IdInt 4))),
       st')
    /\ mem_content (world st') "a.txt" = Some "bye".
Proof.
  destruct (applyChanges_commit_failure_keeps_write mem_server mem_io mem_repo
              mem_content
              (applyChanges_request "a.txt" "bye" (Some (IdInt 4)))
              "a.txt" "bye" (mkSt locked_repo_world [])
              (PyExn (OtherException "GitCommandError") "index.lock exists")
              (mem_write_text "a.txt" "bye" locked_repo_world).2
              (mem_write_text "a.txt" "bye" locked_repo_world).2)
    as (st' & Hrun & _ & _ & Hcontent).
  - exact mem_file_store.
  - exact mem_keeps_files.
  - reflexivity.
  - reflexivity.
  - reflexivity.
  - vm_compute. reflexivity.
  - reflexivity.
  - reflexivity.
  - exists st'. split; [exact Hrun | exact Hcontent].
Defined.

(** ** Repeating [applyChanges] *)

(** The store whose writes fail for a while is a file store like any
    other: a write that returns has stored its text, a write that raises
    has left the file as it was; and with no repository there is no
    commit to keep the files. *)
Lemma flaky_file_store : FileStore flaky_io flaky_content.
Proof.
  split; intros p c w; unfold flaky_content; cbn [write_text flaky_io];
    unfold flaky_write_text; destruct (flaky_failures w).
  - intros w' [= <-]. cbn [flaky_files]. apply lookup_insert_eq.
  - discriminate.
  - discriminate.
  - by intros e' w' [= _ <-].
Qed.

Lemma flaky_keeps_files :
  KeepsFiles (aider_git_repo flaky_server) flaky_content.
Proof. intros r msg fs w p. discriminate. Qed.

(** C9, as stated, fails.  When the write of the first call raises and
    the write of the second returns, the file holds the old text after
    one call and the new text after two: the two final states differ,
    and after the first call the file does not hold the content.  When
    the path cannot be written at all, the file holds the content after
    neither call. *)
Lemma applyChanges_twice_differs_after_failed_write :
  let request := applyChanges_request "a.txt" "bye" None in
  let once :=
    (handle_mcp_request flaky_server request (mkSt locked_once_world [])).2 in
  let twice := (handle_mcp_request flaky_server request once).2 in
  let denied := applyChanges_request "/etc/motd" "x" None in
  let once_denied :=
    (handle_mcp_request mem_server denied (mkSt example_world [])).2 in
  let twice_denied := (handle_mcp_request mem_server denied once_denied).2 in
  (flaky_content (world once) "a.txt" = Some "hello"
   /\ flaky_content (world twice) "a.txt" = Some "bye"
   /\ flaky_content (world twice) "a.txt" <> flaky_content (world once) "a.txt")
  /\ (mem_content (world once_denied) "/etc/motd" = None
      /\ mem_content (world twice_denied) "/etc/motd" = None
      /\ mem_content (world twice_denied) "/etc/motd" <> Some "x").
Proof.
  split; (split; [vm_compute; reflexivity|]);
    (split; [vm_compute; reflexivity|]); vm_compute; discriminate.
Qed.

(** C9 (amended): when the write of an applyChanges request returns, the
    target file holds exactly the new text after the request, and it holds
    exactly the new text after the same request is made once more: the
    second call leaves the file in the state the first call left it
    in. *)
Theorem applyChanges_twice_same_file {W} (srv : Server W)
    (io : InputOutput W) (content_of : W -> string -> option string)
    (request : JsonRpcRequest.t) (p c : string) (st : St W) :
  FileStore io content_of ->
  KeepsFiles (aider_git_repo srv) content_of ->
  JsonRpcRequest.method request = "applyChanges" ->
  aider_io srv = Some io ->
  ApplyChangesParams_init (default ∅ (JsonRpcRequest.params request))
  = Return {| file_path := p; content := c |} ->
  (write_text io p c (world st)).1 = Return tt ->
  let once := (handle_mcp_request srv request st).2 in
  let twice := (handle_mcp_request srv request once).2 in
  content_of (world once) p = Some c
  /\ content_of (world twice) p = Some c
  /\ content_of (world twice) p = content_of (world once) p.
Proof.
  intros Hstore Hkeeps Hm Hio Hinit Hwrite once twice.
  assert (Honce : content_of (world once) p = Some c).
  { unfold once.
    rewrite (applyChanges_content srv io content_of Hio request p c st Hm Hinit).
    by rewrite Hwrite. }
  assert (Htwice : content_of (world twice) p = Some c).
  { unfold twice.
    rewrite (applyChanges_content srv io content_of Hio request p c once Hm Hinit).
    by destruct (write_text io p c (world once)).1. }
  repeat split; congruence.
Qed.

Lemma applyChanges_twice_same_file_witness :
  let request := applyChanges_request "a.txt" "bye" None in
  let once := (handle_mcp_request mem_server request (mkSt example_world [])).2 in
  let twice := (handle_mcp_request mem_server request once).2 in
  mem_content (world once) "a.txt" = Some "bye"
  /\ mem_content (world twice) "a.txt" = Some "bye"
  /\ mem_content (world twice) "a.txt" = mem_content (world once) "a.txt".
Proof.
  apply (applyChanges_twice_same_file mem_server mem_io mem_content
           (applyChanges_request "a.txt" "bye" None) "a.txt" "bye"
           (mkSt example_world [])).
  - exact mem_file_store.
  - exact mem_keeps_files.
  - reflexivity.
  - reflexivity.
  - vm_compute. reflexivity.
  - reflexivity.
Defined.

(** With the in-memory store, whose faults do not come and go, repeating
    the request leaves the file as the first call left it whether or not
    the write is possible. *)
Lemma mem_applyChanges_twice_same_content (p c : string) (i : option RpcId)
    (st : St MemWorld) :
  let request := applyChanges_request p c i in
  let once := (handle_mcp_request mem_server request st).2 in
  let twice := (handle_mcp_request mem_server request once).2 in
  mem_content (world twice) p = mem_content (world once) p.
Proof.
  intros request once twice.
  pose proof (@applyChanges_content _ mem_server mem_io mem_content
                mem_file_store mem_keeps_files eq_refl request p c)
    as Hcontent.
  unfold twice. rewrite Hcontent by done.
  destruct (write_text mem_io p c (world once)).1 as [[]|e] eqn:Hw2; [|reflexivity].
  unfold once. rewrite Hcontent by done.
  destruct (write_text mem_io p c (world st)).1 as [[]|e] eqn:Hw1; [reflexivity|].
  exfalso. revert Hw2. unfold once.
  rewrite handle_mcp_request_applyChanges by done.
  destruct (write_text mem_io p c (world st)) as [o w1] eqn:Hw. cbn [fst] in Hw1. subst o.
  erewrite handle_apply_changes_write_raises; [|reflexivity|reflexivity|exact Hw].
  cbn [snd world]. cbn [write_text mem_io] in Hw |- *. unfold mem_write_text in *.
  destruct (mem_unwritable (world st) !! p) eqn:Hu; [|discriminate].
  injection Hw as <- <-. by rewrite Hu.
Qed.

(** ** The catch-all of [handle_apply_changes] *)

(** C10: [handle_apply_changes] returns on every input and never raises.
    Parameters that do not validate, and a write that raises, both end in
    the payload with [success] false and the message
    ["Error applying changes: "] followed by the description of the
    failure; a payload with [success] false always has such a message.
    The dispatcher therefore answers an applyChanges request with a
    result and no error. *)
Theorem handle_apply_changes_never_raises {W} (srv : Server W)
    (params : gmap string PyVal) (st : St W) :
  exists r st',
    handle_apply_changes srv params st = (Return (ApplyChangesDump r), st')
    /\ (forall e,
          ApplyChangesParams_init params = Raise e ->
          r = {| success := false;
                 message := Some ("Error applying changes: " +:+ exn_str e) |})
    /\ (forall io p c e w1,
          aider_io srv = Some io ->
          ApplyChangesParams_init params
          = Return {| file_path := p; content := c |} ->
          write_text io p c (world st) = (Raise e, w1) ->
          r = {| success := false;
                 message := Some ("Error applying changes: " +:+ exn_str e) |})
    /\ (success r = false ->
        exists e, message r = Some ("Error applying changes: " +:+ exn_str e))
    /\ (forall request st0,
          JsonRpcRequest.method request = "applyChanges" ->
          is_not_None (aider_io srv) = true ->
          default ∅ (JsonRpcRequest.params request) = params ->
          received request st0 = st ->
          handle_mcp_request srv request st0
          = (Return
               (JsonRpcResponse.mk "2.0" (Some (ApplyChangesDump r)) None
                  (JsonRpcRequest.id request)),
             st')).
Proof.
  assert (Hdispatch : forall r st',
    handle_apply_changes srv params st = (Return (ApplyChangesDump r), st') ->
    forall request st0,
      JsonRpcRequest.method request = "applyChanges" ->
      is_not_None (aider_io srv) = true ->
      default ∅ (JsonRpcRequest.params request) = params ->
      received request st0 = st ->
      handle_mcp_request srv request st0
      = (Return (JsonRpcResponse.mk "2.0" (Some (ApplyChangesDump r)) None
                   (JsonRpcRequest.id request)), st')).
  { intros r st' Hrun request st0 Hm Hio Hparams Hst.
    rewrite handle_mcp_request_applyChanges by done.
    rewrite Hparams, Hst, Hrun. reflexivity. }
  destruct (ApplyChangesParams_init params) as [[p c]|e] eqn:Hinit.
  - destruct (aider_io srv) as [io|] eqn:Hio.
    + destruct (write_text io p c (world st)) as [[[]|e] w1] eqn:Hwrite.
      * pose proof (handle_apply_changes_written srv _ _ _ _ _ _
                      Hinit Hio Hwrite) as Hrun.
        cbn zeta in Hrun.
        destruct (aider_git_repo srv) as [repo|].
        -- destruct (commit repo _ _ w1) as [[[]|e] w2];
             do 2 eexists; (split; [exact Hrun|]);
             (split; [discriminate|]);
             (split; [intros ????? [= <-] [= <- <-]; congruence|]);
             (split; [discriminate | by apply Hdispatch]).
        -- do 2 eexists. split; [exact Hrun|].
           split; [discriminate|].
           split; [intros ????? [= <-] [= <- <-]; congruence|].
           split; [discriminate | by apply Hdispatch].
      * pose proof (handle_apply_changes_write_raises srv _ _ _ _ _ _ _
                      Hinit Hio Hwrite) as Hrun.
        do 2 eexists. split; [exact Hrun|].
        split; [discriminate|].
        split; [intros ????? [= <-] [= <- <-]; congruence|].
        split; [eauto | by apply Hdispatch].
    + destruct (handle_apply_changes_returns srv params st) as (r & st' & Hrun).
      pose proof (handle_apply_changes_no_io srv _ st _ _ Hinit Hio) as Hr.
      rewrite Hrun in Hr. cbn [fst] in Hr. injection Hr as ->.
      do 2 eexists. split; [exact Hrun|].
      split; [discriminate|]. split; [discriminate|].
      split; [|by apply Hdispatch].
      intros _. by exists (NoneType_has_no "write_text").
  - pose proof (handle_apply_changes_invalid srv _ st _ Hinit) as Hrun.
    do 2 eexists. split; [exact Hrun|].
    split; [by intros ? [= <-]|]. split; [discriminate|].
    split; [eauto | by apply Hdispatch].
Qed.

(** * Further properties of the dispatcher and the handlers *)

(** ** The loop of [handle_get_context], in full *)

Section ReadLoop.
Context {W : Type} (srv : Server W) (io : InputOutput W).
Hypothesis Hio : aider_io srv = Some io.
Implicit Types (st : St W) (fc : list (string * option string)).

Lemma read_one_full fc p st :
  read_one srv fc p st
  = (Return (dict_setitem fc p (file_entry (read_text io p (world st)).1)),
     mkSt (read_text io p (world st)).2
       (logs st ++ read_log p (read_text io p (world st)).1)).
Proof.
  unfold read_one, aider_io_read_text. unfold_M. rewrite Hio.
  destruct (read_text io p (world st)) as [[c|e] w']; cbn.
  - by rewrite app_nil_r.
  - by destruct (is_FileNotFoundError e).
Qed.

(** The loop calls the provider for reads only, one per listed path, and
    only adds to the log. *)
Lemma read_each_full ps fc st :
  exists fs more,
    read_each srv ps fc st
    = (Return fs, mkSt (read_all io ps (world st)) (logs st ++ more)).
Proof.
  revert fc st. induction ps as [|p ps IH]; intros fc st; cbn [read_each].
  - exists fc, []. unfold ret, read_all. cbn. rewrite app_nil_r. by destruct st.
  - unfold bind. rewrite read_one_full.
    destruct (IH (dict_setitem fc p (file_entry (read_text io p (world st)).1))
                (mkSt (read_text io p (world st)).2
                   (logs st ++ read_log p (read_text io p (world st)).1)))
      as (fs & more & ->).
    exists fs, (read_log p (read_text io p (world st)).1 ++ more).
    cbn [world logs]. by rewrite app_assoc.
Qed.

(** Each failing read leaves its record in the log. *)
Lemma read_each_logs ps fc st (w0 : W) p :
  StableReads io ->
  (forall q, (read_text io q (world st)).1 = (read_text io q w0).1) ->
  p ∈ ps ->
  exists fs st',
    read_each srv ps fc st = (Return fs, st')
    /\ (forall r, r ∈ logs st -> r ∈ logs st')
    /\ (forall r, r ∈ read_log p (read_text io p w0).1 -> r ∈ logs st').
Proof.
  intros Hstable. revert fc st.
  induction ps as [|x ps IH]; intros fc st Hst Hp; [by apply elem_of_nil in Hp|].
  cbn [read_each]. unfold bind. rewrite read_one_full.
  set (fc1 := dict_setitem fc x _). set (st1 := mkSt _ _).
  assert (Hst1 : forall q, (read_text io q (world st1)).1 = (read_text io q w0).1).
  { intros q. unfold st1. cbn [world]. by rewrite Hstable, Hst. }
  destruct (decide (p ∈ ps)) as [Hin|Hnin].
  - destruct (IH fc1 st1 Hst1 Hin) as (fs & st' & Hrun & Hold & Hnew).
    exists fs, st'. split; [exact Hrun|]. split; [|exact Hnew].
    intros r Hr. apply Hold. unfold st1. cbn [logs]. apply elem_of_app. by left.
  - apply elem_of_cons in Hp as [->|Hp]; [|done].
    destruct (read_each_full ps fc1 st1) as (fs & more & Hrun).
    do 2 eexists. split; [exact Hrun|]. cbn [logs]. unfold st1. cbn [logs].
    split; intros r Hr; rewrite !elem_of_app; [tauto|].
    left. right. by rewrite Hst.
Qed.
End ReadLoop.

(** What [handle_get_context] leaves behind: the world after the reads
    (none when the parameters do not validate), and a longer log. *)
Lemma handle_get_context_state {W} (srv : Server W) (io : InputOutput W)
    params st :
  aider_io srv = Some io ->
  exists more,
    (handle_get_context srv params st).2
    = mkSt (match GetContextParams_init params with
            | Return ps => read_all io (file_paths ps) (world st)
            | Raise _ => world st
            end)
        (logs st ++ more).
Proof.
  intros Hio. unfold handle_get_context.
  unfold try_except, bind at 1, lift.
  destruct (GetContextParams_init params) as [[ps]|e].
  - unfold bind. cbn [file_paths].
    destruct (read_each_full srv io Hio ps [] st) as (fs & more & ->).
    unfold ret. cbn. eauto.
  - unfold_M. cbn. eauto.
Qed.

(** What [handle_apply_changes] adds to the log. *)
Lemma handle_apply_changes_log {W} (srv : Server W) (io : InputOutput W)
    params st :
  aider_io srv = Some io ->
  exists more, logs (handle_apply_changes srv params st).2 = logs st ++ more.
Proof.
  intros Hio.
  destruct (ApplyChangesParams_init params) as [[p c]|e] eqn:Hinit.
  - destruct (write_text io p c (world st)) as [[[]|e] w1] eqn:Hwrite.
    + rewrite (handle_apply_changes_written srv _ _ _ _ _ _ Hinit Hio Hwrite).
      cbn zeta. destruct (aider_git_repo srv) as [repo|].
      * destruct (commit repo _ _ w1) as [[[]|e] w2]; cbn [snd logs];
          rewrite <- ?app_assoc; eauto.
      * cbn [snd logs]. eauto.
    + rewrite (handle_apply_changes_write_raises srv _ _ _ _ _ _ _
                 Hinit Hio Hwrite).
      cbn [snd logs]. rewrite <- app_assoc. eauto.
  - rewrite (handle_apply_changes_invalid srv _ _ _ Hinit). cbn [snd logs]. eauto.
Qed.

(** ** Requests that are turned down *)

(** X1: with the I/O provider set, a request whose method is neither empty
    nor one of the two known ones is answered with error -32601 and a
    message that quotes the method; no provider is called and nothing but
    the receipt of the request is logged. *)
Theorem unknown_method_is_reported {W} (srv : Server W) (io : InputOutput W)
    (request : JsonRpcRequest.t) (st : St W) :
  aider_io srv = Some io ->
  JsonRpcRequest.method request <> "" ->
  JsonRpcRequest.method request <> "getContext" ->
  JsonRpcRequest.method request <> "applyChanges" ->
  handle_mcp_request srv request st
  = (Return
       (JsonRpcResponse.mk "2.0" None
          (Some {| code := -32601;
                   error_message :=
                     "Method '" +:+ JsonRpcRequest.method request
                     +:+ "' not found" |})
          (JsonRpcRequest.id request)),
     mkSt (world st)
       (logs st ++ [(INFO, "Received MCP request: "
                           +:+ JsonRpcRequest.method request)])).
Proof.
  intros Hio H0 Hg Ha.
  rewrite unknown_method_not_found by (by rewrite ?Hio). reflexivity.
Qed.

Lemma unknown_method_is_reported_witness :
  handle_mcp_request mem_server
    (JsonRpcRequest.mk "2.0" "listTools" None (Some (IdInt 5)))
    (mkSt example_world [])
  = (Return
       (JsonRpcResponse.mk "2.0" None
          (Some {| code := -32601;
                   error_message := "Method 'listTools' not found" |})
          (Some (IdInt 5))),
     mkSt example_world [(INFO, "Received MCP request: listTools")]).
Proof.
  apply (unknown_method_is_reported mem_server mem_io
           (JsonRpcRequest.mk "2.0" "listTools" None (Some (IdInt 5)))
           (mkSt example_world [])).
  - reflexivity.
  - discriminate.
  - discriminate.
  - discriminate.
Defined.

(** X2: parameters of getContext that do not validate are the one
    failure that reaches the top-level handler of the dispatcher: the
    answer is error -32000 with the message ["Server error: "] followed
    by the description of the failure; no file is read, and the failure
    is logged twice, by the handler and by the dispatcher. *)
Theorem getContext_invalid_params_is_server_error {W} (srv : Server W)
    (io : InputOutput W) (request : JsonRpcRequest.t) (st : St W) (e : Exn) :
  JsonRpcRequest.method request = "getContext" ->
  aider_io srv = Some io ->
  GetContextParams_init (default ∅ (JsonRpcRequest.params request)) = Raise e ->
  handle_mcp_request srv request st
  = (Return
       (JsonRpcResponse.mk "2.0" None
          (Some {| code := -32000;
                   error_message := "Server error: " +:+ exn_str e |})
          (JsonRpcRequest.id request)),
     mkSt (world st)
       (logs st
        ++ [(INFO, "Received MCP request: getContext");
            (ERROR, "Error in handle_get_context: " +:+ exn_str e);
            (ERROR, "Error handling request: " +:+ exn_str e)])).
Proof.
  intros Hm Hio Hinit.
  rewrite handle_mcp_request_getContext by (by rewrite ?Hio).
  rewrite (handle_get_context_invalid srv _ _ _ Hinit).
  unfold received. rewrite Hm. cbn [world logs].
  by rewrite <- !app_assoc.
Qed.

Lemma getContext_invalid_params_is_server_error_witness :
  exists e,
    handle_mcp_request mem_server
      (JsonRpcRequest.mk "2.0" "getContext"
         (Some {[ "file_paths" := PStr "a.txt" ]}) None)
      (mkSt example_world [])
    = (Return
         (JsonRpcResponse.mk "2.0" None
            (Some {| code := -32000;
                     error_message := "Server error: " +:+ exn_str e |})
            None),
       mkSt example_world
         ([] ++ [(INFO, "Received MCP request: getContext");
                 (ERROR, "Error in handle_get_context: " +:+ exn_str e);
                 (ERROR, "Error handling request: " +:+ exn_str e)])).
Proof.
  exists (validation_error "GetContextParams" ["file_paths"]).
  apply (getContext_invalid_params_is_server_error mem_server mem_io
           (JsonRpcRequest.mk "2.0" "getContext"
              (Some {[ "file_paths" := PStr "a.txt" ]}) None)
           (mkSt example_world [])).
  - reflexivity.
  - reflexivity.
  - vm_compute. reflexivity.
Defined.

(** X3: a getContext request without the key [file_paths] (and so a
    request without parameters) is answered with error -32000, and no
    provider is called. *)
Theorem getContext_missing_file_paths {W} (srv : Server W)
    (io : InputOutput W) (request : JsonRpcRequest.t) (st : St W) :
  JsonRpcRequest.method request = "getContext" ->
  aider_io srv = Some io ->
  default ∅ (JsonRpcRequest.params request) !! "file_paths" = None ->
  exists resp st',
    handle_mcp_request srv request st = (Return resp, st')
    /\ error_code resp = Some (-32000)
    /\ JsonRpcResponse.result resp = None
    /\ world st' = world st.
Proof.
  intros Hm Hio Hkey.
  rewrite handle_mcp_request_getContext by (by rewrite ?Hio).
  erewrite handle_get_context_invalid; [by eauto 6|].
  unfold GetContextParams_init. by rewrite Hkey.
Qed.

Lemma getContext_missing_file_paths_witness :
  exists resp st',
    handle_mcp_request mem_server
      (JsonRpcRequest.mk "2.0" "getContext" None (Some (IdStr "q")))
      (mkSt example_world [])
    = (Return resp, st')
    /\ error_code resp = Some (-32000)
    /\ JsonRpcResponse.result resp = None
    /\ world st' = example_world.
Proof.
  apply (getContext_missing_file_paths mem_server mem_io
           (JsonRpcRequest.mk "2.0" "getContext" None (Some (IdStr "q")))
           (mkSt example_world [])).
  - reflexivity.
  - reflexivity.
  - reflexivity.
Defined.

(** X4: an applyChanges request that lacks [file_path] or [content] (and
    so a request without parameters) is answered with a result, the
    payload with [success] false; nothing is written and nothing is
    committed. *)
Theorem applyChanges_missing_field {W} (srv : Server W)
    (io : InputOutput W) (request : JsonRpcRequest.t) (st : St W) :
  JsonRpcRequest.method request = "applyChanges" ->
  aider_io srv = Some io ->
  default ∅ (JsonRpcRequest.params request) !! "file_path" = None
  \/ default ∅ (JsonRpcRequest.params request) !! "content" = None ->
  exists msg st',
    handle_mcp_request srv request st
    = (Return
         (JsonRpcResponse.mk "2.0"
            (Some (ApplyChangesDump {| success := false; message := Some msg |}))
            None
            (JsonRpcRequest.id request)),
       st')
    /\ world st' = world st.
Proof.
  intros Hm Hio Hkey.
  rewrite handle_mcp_request_applyChanges by (by rewrite ?Hio).
  assert (exists e,
    ApplyChangesParams_init (default ∅ (JsonRpcRequest.params request))
    = Raise e) as [e Hinit].
  { unfold ApplyChangesParams_init.
    destruct Hkey as [-> | ->]; cbn [mbind option_bind].
    - destruct (_ ≫= as_str); eauto.
    - destruct (_ ≫= as_str); eauto. }
  rewrite (handle_apply_changes_invalid srv _ _ _ Hinit).
  unfold error_applying, result_response. eauto.
Qed.

Lemma applyChanges_missing_field_witness :
  exists msg st',
    handle_mcp_request mem_server
      (JsonRpcRequest.mk "2.0" "applyChanges"
         (Some {[ "file_path" := PStr "a.txt" ]}) None)
      (mkSt example_world [])
    = (Return
         (JsonRpcResponse.mk "2.0"
            (Some (ApplyChangesDump {| success := false; message := Some msg |}))
            None None),
       st')
    /\ world st' = example_world.
Proof.
  apply (applyChanges_missing_field mem_server mem_io
           (JsonRpcRequest.mk "2.0" "applyChanges"
              (Some {[ "file_path" := PStr "a.txt" ]}) None)
           (mkSt example_world [])).
  - reflexivity.
  - reflexivity.
  - right. vm_compute. reflexivity.
Defined.

(** ** What an error response tells *)

(** The handlers, seen from the dispatcher: getContext returns exactly
    when its parameters validate. *)
Lemma handle_get_context_outcome {W} (srv : Server W) (io : InputOutput W)
    params st :
  aider_io srv = Some io ->
  match GetContextParams_init params with
  | Return ps => exists r st', handle_get_context srv params st = (Return r, st')
  | Raise e =>
      exists st',
        handle_get_context srv params st = (Raise e, st')
        /\ world st' = world st
  end.
Proof.
  intros Hio. destruct (GetContextParams_init params) as [[ps]|e] eqn:Hinit.
  - destruct (handle_get_context_eval srv io Hio _ ps st Hinit)
      as (fs & st' & Hrun & _). eauto.
  - rewrite (handle_get_context_invalid srv _ _ _ Hinit). eauto.
Qed.

(** X5: a request that is answered with an error has called no provider:
    the world is as it was before the request. *)
Theorem error_response_calls_no_provider {W} (srv : Server W)
    (request : JsonRpcRequest.t) (st st' : St W) (resp : JsonRpcResponse.t) :
  handle_mcp_request srv request st = (Return resp, st') ->
  is_Some (JsonRpcResponse.error resp) ->
  world st' = world st.
Proof.
  destruct (decide (JsonRpcRequest.method request = "")) as [Hm|Hm].
  { unfold handle_mcp_request. unfold logger at 1, bind at 1.
    rewrite decide_True by done. by intros [= <- <-]. }
  destruct (aider_io srv) as [io|] eqn:Hio; cycle 1.
  { unfold handle_mcp_request. unfold logger at 1, bind at 1.
    rewrite decide_False, Hio by done. by intros [= <- <-]. }
  destruct (decide (JsonRpcRequest.method request = "getContext")) as [Hg|Hg].
  { rewrite handle_mcp_request_getContext by (by rewrite ?Hio).
    pose proof (handle_get_context_outcome srv io
                  (default ∅ (JsonRpcRequest.params request))
                  (received request st) Hio) as Hout.
    destruct (GetContextParams_init _) as [ps|e].
    - destruct Hout as (r & st1 & ->). intros [= <- <-] [? [=]].
    - destruct Hout as (st1 & -> & Hw). by intros [= <- <-] _. }
  destruct (decide (JsonRpcRequest.method request = "applyChanges")) as [Ha|Ha].
  { rewrite handle_mcp_request_applyChanges by (by rewrite ?Hio).
    destruct (handle_apply_changes_returns srv
                (default ∅ (JsonRpcRequest.params request))
                (received request st)) as (r & st1 & ->).
    intros [= <- <-] [? [=]]. }
  rewrite unknown_method_not_found by (by rewrite ?Hio).
  by intros [= <- <-].
Qed.

Lemma error_response_calls_no_provider_witness :
  world (handle_mcp_request mem_server
           (JsonRpcRequest.mk "2.0" "getContext" None None)
           (mkSt example_world [])).2
  = example_world.
Proof.
  apply (error_response_calls_no_provider mem_server
           (JsonRpcRequest.mk "2.0" "getContext" None None)
           (mkSt example_world [])
           (handle_mcp_request mem_server
              (JsonRpcRequest.mk "2.0" "getContext" None None)
              (mkSt example_world [])).2
           (error_response (-32000)
              ("Server error: "
               +:+ exn_str (validation_error "GetContextParams" ["file_paths"]))
              None)).
  - vm_compute. reflexivity.
  - vm_compute. eauto.
Defined.

(** X6: error -32000 is given to one kind of request only, a getContext
    request whose parameters do not validate, and its message is
    ["Server error: "] followed by the description of the validation
    failure; an applyChanges request never gets it. *)
Theorem server_error_only_from_getContext {W} (srv : Server W)
    (request : JsonRpcRequest.t) (st st' : St W) (resp : JsonRpcResponse.t) :
  handle_mcp_request srv request st = (Return resp, st') ->
  error_code resp = Some (-32000) ->
  JsonRpcRequest.method request = "getContext"
  /\ exists e,
       GetContextParams_init (default ∅ (JsonRpcRequest.params request))
       = Raise e
       /\ JsonRpcResponse.error resp
          = Some {| code := -32000;
                    error_message := "Server error: " +:+ exn_str e |}.
Proof.
  destruct (decide (JsonRpcRequest.method request = "")) as [Hm|Hm].
  { unfold handle_mcp_request. unfold logger at 1, bind at 1.
    rewrite decide_True by done. by intros [= <- <-]. }
  destruct (aider_io srv) as [io|] eqn:Hio; cycle 1.
  { unfold handle_mcp_request. unfold logger at 1, bind at 1.
    rewrite decide_False, Hio by done. by intros [= <- <-]. }
  destruct (decide (JsonRpcRequest.method request = "getContext")) as [Hg|Hg].
  { rewrite handle_mcp_request_getContext by (by rewrite ?Hio).
    pose proof (handle_get_context_outcome srv io
                  (default ∅ (JsonRpcRequest.params request))
                  (received request st) Hio) as Hout.
    destruct (GetContextParams_init _) as [ps|e].
    - destruct Hout as (r & st1 & ->). by intros [= <- <-].
    - destruct Hout as (st1 & -> & Hw). intros [= <- <-] _. eauto. }
  destruct (decide (JsonRpcRequest.method request = "applyChanges")) as [Ha|Ha].
  { rewrite handle_mcp_request_applyChanges by (by rewrite ?Hio).
    destruct (handle_apply_changes_returns srv
                (default ∅ (JsonRpcRequest.params request))
                (received request st)) as (r & st1 & ->).
    by intros [= <- <-]. }
  rewrite unknown_method_not_found by (by rewrite ?Hio).
  by intros [= <- <-].
Qed.

Lemma server_error_only_from_getContext_witness :
  JsonRpcRequest.method (JsonRpcRequest.mk "2.0" "getContext" None None)
  = "getContext"
  /\ exists e,
       GetContextParams_init
         (default ∅ (JsonRpcRequest.params
                       (JsonRpcRequest.mk "2.0" "getContext" None None)))
       = Raise e
       /\ JsonRpcResponse.error
            (error_response (-32000)
               ("Server error: "
                +:+ exn_str (validation_error "GetContextParams" ["file_paths"]))
               None)
          = Some {| code := -32000;
                    error_message := "Server error: " +:+ exn_str e |}.
Proof.
  apply (server_error_only_from_getContext mem_server
           (JsonRpcRequest.mk "2.0" "getContext" None None)
           (mkSt example_world [])
           (handle_mcp_request mem_server
              (JsonRpcRequest.mk "2.0" "getContext" None None)
              (mkSt example_world [])).2
           (error_response (-32000)
              ("Server error: "
               +:+ exn_str (validation_error "GetContextParams" ["file_paths"]))
              None)).
  - vm_compute. reflexivity.
  - reflexivity.
Defined.

(** X7: every request is logged before anything else is done: the log
    after the request is the log before it, then the record of the
    received method, then whatever the handling added.  Nothing is ever
    removed from the log. *)
Theorem request_is_logged_first {W} (srv : Server W)
    (request : JsonRpcRequest.t) (st : St W) :
  exists more,
    logs (handle_mcp_request srv request st).2
    = logs st
      ++ (INFO, "Received MCP request: " +:+ JsonRpcRequest.method request)
         :: more.
Proof.
  destruct (decide (JsonRpcRequest.method request = "")) as [Hm|Hm].
  { unfold handle_mcp_request. unfold logger at 1, bind at 1.
    rewrite decide_True by done. cbn. eauto. }
  destruct (aider_io srv) as [io|] eqn:Hio; cycle 1.
  { unfold handle_mcp_request. unfold logger at 1, bind at 1.
    rewrite decide_False, Hio by done. cbn. eauto. }
  destruct (decide (JsonRpcRequest.method request = "getContext")) as [Hg|Hg].
  { rewrite handle_mcp_request_getContext by (by rewrite ?Hio).
    destruct (handle_get_context_state srv io
                (default ∅ (JsonRpcRequest.params request))
                (received request st) Hio) as [more Hst].
    destruct (handle_get_context _ _ _) as [[r|e] st1]; cbn [snd] in *;
      subst st1; cbn [logs received]; rewrite <- !app_assoc; cbn; eauto. }
  destruct (decide (JsonRpcRequest.method request = "applyChanges")) as [Ha|Ha].
  { rewrite handle_mcp_request_applyChanges by (by rewrite ?Hio).
    destruct (handle_apply_changes_log srv io
                (default ∅ (JsonRpcRequest.params request))
                (received request st) Hio) as [more Hlg].
    destruct (handle_apply_changes _ _ _) as [[r|e] st1]; cbn [snd logs] in *;
      rewrite Hlg; cbn [logs received]; rewrite <- !app_assoc; cbn; eauto. }
  rewrite unknown_method_not_found by (by rewrite ?Hio). cbn. eauto.
Qed.

(** ** More on [applyChanges] *)

(** X8: the [success] flag of [handle_apply_changes] tells whether the
    write returned, and nothing else: it is true exactly when the
    parameters validate, the I/O provider is set and its write returns,
    whatever the repository does afterwards. *)
Theorem applyChanges_success_iff_write_returned {W} (srv : Server W)
    (params : gmap string PyVal) (st : St W) :
  exists r st',
    handle_apply_changes srv params st = (Return (ApplyChangesDump r), st')
    /\ (success r = true
        <-> exists io p c w1,
              aider_io srv = Some io
              /\ ApplyChangesParams_init params
                 = Return {| file_path := p; content := c |}
              /\ write_text io p c (world st) = (Return tt, w1)).
Proof.
  destruct (ApplyChangesParams_init params) as [[p c]|e] eqn:Hinit.
  - destruct (aider_io srv) as [io|] eqn:Hio.
    + destruct (write_text io p c (world st)) as [[[]|e] w1] eqn:Hwrite.
      * pose proof (handle_apply_changes_written srv _ _ _ _ _ _
                      Hinit Hio Hwrite) as Hrun.
        cbn zeta in Hrun.
        assert (exists r st',
          handle_apply_changes srv params st = (Return (ApplyChangesDump r), st')
          /\ success r = true) as (r & st' & Hr & Hs).
        { destruct (aider_git_repo srv) as [repo|]; [|by eauto].
          destruct (commit repo _ _ w1) as [[[]|e] w2]; by eauto. }
        exists r, st'. split; [exact Hr|]. split; [|done].
        intros _. exists io, p, c, w1. by rewrite Hwrite.
      * rewrite (handle_apply_changes_write_raises srv _ _ _ _ _ _ _
                   Hinit Hio Hwrite).
        do 2 eexists. split; [reflexivity|]. split; [done|].
        intros (io' & p' & c' & w1' & [= <-] & [= <- <-] & Hw). congruence.
    + destruct (handle_apply_changes_returns srv params st) as (r & st' & Hrun).
      pose proof (handle_apply_changes_no_io srv _ st _ _ Hinit Hio) as Hr.
      rewrite Hrun in Hr. cbn [fst] in Hr. injection Hr as ->.
      do 2 eexists. split; [exact Hrun|]. split; [done|].
      by intros (io' & _ & _ & _ & [=] & _).
  - rewrite (handle_apply_changes_invalid srv _ _ _ Hinit).
    do 2 eexists. split; [reflexivity|]. split; [done|].
    by intros (_ & p' & c' & _ & _ & [=] & _).
Qed.

(** X9: with no repository configured, an applyChanges request whose
    write returns is answered with [success] true and a message that
    says so; the write is the only provider call, and the target file
    holds the new text. *)
Theorem applyChanges_without_repository {W} (srv : Server W)
    (io : InputOutput W) (content_of : W -> string -> option string)
    (request : JsonRpcRequest.t) (p c : string) (st : St W) (w1 : W) :
  FileStore io content_of ->
  JsonRpcRequest.method request = "applyChanges" ->
  aider_io srv = Some io ->
  aider_git_repo srv = None ->
  ApplyChangesParams_init (default ∅ (JsonRpcRequest.params request))
  = Return {| file_path := p; content := c |} ->
  write_text io p c (world st) = (Return tt, w1) ->
  handle_mcp_request srv request st
  = (Return
       (JsonRpcResponse.mk "2.0"
          (Some (ApplyChangesDump
                   {| success := true;
                      message := Some ("Changes applied to " +:+ p
                                       +:+ " (no git repository)") |}))
          None
          (JsonRpcRequest.id request)),
     mkSt w1
       (logs st ++ [(INFO, "Received MCP request: applyChanges");
                    (INFO, "Writing changes to " +:+ p)]))
  /\ content_of w1 p = Some c.
Proof.
  intros Hstore Hm Hio Hrepo Hinit Hwrite.
  split; [|by eapply write_text_stores].
  rewrite handle_mcp_request_applyChanges by (by rewrite ?Hio).
  erewrite handle_apply_changes_written by eauto. cbn zeta.
  rewrite Hrepo. unfold received. rewrite Hm. cbn [logs].
  by rewrite <- app_assoc.
Qed.

Lemma applyChanges_without_repository_witness :
  handle_mcp_request (run_server (Some mem_io) None)
    (applyChanges_request "b.txt" "new" (Some (IdInt 9)))
    (mkSt example_world [])
  = (Return
       (JsonRpcResponse.mk "2.0"
          (Some (ApplyChangesDump
                   {| success := true;
                      message :=
                        Some "Changes applied to b.txt (no git repository)" |}))
          None
          (Some (IdInt 9))),
     mkSt (mem_write_text "b.txt" "new" example_world).2
       ([] ++ [(INFO, "Received MCP request: applyChanges");
               (INFO, "Writing changes to b.txt")]))
  /\ mem_content (mem_write_text "b.txt" "new" example_world).2 "b.txt"
     = Some "new".
Proof.
  apply (applyChanges_without_repository (run_server (Some mem_io) None)
           mem_io mem_content
           (applyChanges_request "b.txt" "new" (Some (IdInt 9)))
           "b.txt" "new" (mkSt example_world [])).
  - exact mem_file_store.
  - reflexivity.
  - reflexivity.
  - reflexivity.
  - vm_compute. reflexivity.
  - reflexivity.
Defined.

(** X10: the repository is asked for a commit only after the write has
    returned: when the write raises, no commit is asked, although a
    repository is configured. *)
Theorem applyChanges_failed_write_asks_no_commit {W} (io : InputOutput W)
    (repo : GitRepo W) (request : JsonRpcRequest.t) (p c : string)
    (w0 w1 : W) (e : Exn) (calls : list CommitCall) (lg0 : list LogRecord) :
  JsonRpcRequest.method request = "applyChanges" ->
  ApplyChangesParams_init (default ∅ (JsonRpcRequest.params request))
  = Return {| file_path := p; content := c |} ->
  write_text io p c w0 = (Raise e, w1) ->
  world (handle_mcp_request
           (run_server (Some (recording_io io)) (Some (recording_repo repo)))
           request (mkSt (w0, calls) lg0)).2
  = (w1, calls).
Proof.
  intros Hm Hinit Hwrite.
  rewrite handle_mcp_request_applyChanges by done.
  erewrite handle_apply_changes_write_raises; eauto.
  cbn. by rewrite Hwrite.
Qed.

Lemma applyChanges_failed_write_asks_no_commit_witness :
  world (handle_mcp_request
           (run_server (Some (recording_io mem_io))
              (Some (recording_repo mem_repo)))
           (applyChanges_request "/etc/motd" "x" None)
           (mkSt (example_world, []) [])).2
  = (example_world, []).
Proof.
  apply (applyChanges_failed_write_asks_no_commit mem_io mem_repo
           (applyChanges_request "/etc/motd" "x" None) "/etc/motd" "x"
           example_world example_world permission_denied [] []).
  - reflexivity.
  - vm_compute. reflexivity.
  - reflexivity.
Defined.

(** X11: for a target path [dir/name] whose last component [name] has no
    separator, the commit of a successful applyChanges request is made
    under the message ["MCP: Apply changes to name"], for the full path;
    for a path without separator the message names the path itself. *)
Theorem applyChanges_commit_message_names_the_file {W} (io : InputOutput W)
    (repo : GitRepo W) (request : JsonRpcRequest.t) (dir name c : string)
    (w0 w1 w2 : W) (calls : list CommitCall) (lg0 : list LogRecord) :
  has_char "/" name = false ->
  JsonRpcRequest.method request = "applyChanges" ->
  ApplyChangesParams_init (default ∅ (JsonRpcRequest.params request))
  = Return {| file_path := dir +:+ "/" +:+ name; content := c |} ->
  write_text io (dir +:+ "/" +:+ name) c w0 = (Return tt, w1) ->
  commit repo ("MCP: Apply changes to " +:+ name) [dir +:+ "/" +:+ name] w1
  = (Return tt, w2) ->
  world (handle_mcp_request
           (run_server (Some (recording_io io)) (Some (recording_repo repo)))
           request (mkSt (w0, calls) lg0)).2
  = (w2, calls ++ [("MCP: Apply changes to " +:+ name,
                    [dir +:+ "/" +:+ name])])
  /\ basename (dir +:+ "/" +:+ name) = name
  /\ basename name = name.
Proof.
  intros Hname Hm Hinit Hwrite Hcommit.
  split; [|split; [by apply basename_join | by apply basename_plain]].
  rewrite handle_mcp_request_applyChanges by done.
  erewrite handle_apply_changes_written; eauto; cycle 1.
  { cbn. rewrite Hwrite. reflexivity. }
  cbn. rewrite basename_join by done. by rewrite Hcommit.
Qed.

Lemma applyChanges_commit_message_names_the_file_witness :
  world (handle_mcp_request
           (run_server (Some (recording_io mem_io))
              (Some (recording_repo mem_repo)))
           (applyChanges_request ("lib/util" +:+ "/" +:+ "io.py") "pass" None)
           (mkSt (example_world, []) [])).2
  = ((mem_commit "MCP: Apply changes to io.py" ["lib/util/io.py"]
        (mem_write_text "lib/util/io.py" "pass" example_world).2).2,
     [] ++ [("MCP: Apply changes to " +:+ "io.py",
             ["lib/util" +:+ "/" +:+ "io.py"])])
  /\ basename ("lib/util" +:+ "/" +:+ "io.py") = "io.py"
  /\ basename "io.py" = "io.py".
Proof.
  apply (applyChanges_commit_message_names_the_file mem_io mem_repo
           (applyChanges_request ("lib/util" +:+ "/" +:+ "io.py") "pass" None)
           "lib/util" "io.py" "pass" example_world
           (mem_write_text "lib/util/io.py" "pass" example_world).2
           (mem_commit "MCP: Apply changes to io.py" ["lib/util/io.py"]
              (mem_write_text "lib/util/io.py" "pass" example_world).2).2
           [] []).
  - reflexivity.
  - reflexivity.
  - vm_compute. reflexivity.
  - reflexivity.
  - reflexivity.
Defined.

(** ** More on [getContext] *)

Lemma read_all_keeps {W} (io : InputOutput W)
    (content_of : W -> string -> option string) ps w q :
  (forall p q w, content_of (read_text io p w).2 q = content_of w q) ->
  content_of (read_all io ps w) q = content_of w q.
Proof.
  intros Hkeep. unfold read_all. revert w.
  induction ps as [|p ps IH]; intros w; cbn [foldl]; [reflexivity|].
  by rewrite IH, Hkeep.
Qed.

(** X12: getContext never changes a file: the only provider calls it
    makes are reads, so with a provider whose reads leave every file as
    it is, every file holds after the request what it held before,
    whether the parameters validate or not. *)
Theorem getContext_keeps_files {W} (srv : Server W) (io : InputOutput W)
    (content_of : W -> string -> option string)
    (request : JsonRpcRequest.t) (st : St W) :
  JsonRpcRequest.method request = "getContext" ->
  aider_io srv = Some io ->
  (forall p q w, content_of (read_text io p w).2 q = content_of w q) ->
  forall q,
    content_of (world (handle_mcp_request srv request st).2) q
    = content_of (world st) q.
Proof.
  intros Hm Hio Hkeep q.
  rewrite handle_mcp_request_getContext by (by rewrite ?Hio).
  destruct (handle_get_context_state srv io
              (default ∅ (JsonRpcRequest.params request))
              (received request st) Hio) as [more Hst].
  assert (Hworld :
    content_of (world (handle_get_context srv
                         (default ∅ (JsonRpcRequest.params request))
                         (received request st)).2) q
    = content_of (world st) q).
  { rewrite Hst. cbn [world received].
    destruct (GetContextParams_init _) as [ps|e]; [|reflexivity].
    by apply read_all_keeps. }
  by destruct (handle_get_context _ _ _) as [[r|e] st1].
Qed.

Lemma mem_reads_keep_files p q w :
  mem_content (read_text mem_io p w).2 q = mem_content w q.
Proof.
  cbn [read_text mem_io]. unfold mem_read_text.
  destruct (mem_unreadable w !! p); [reflexivity|].
  by destruct (mem_files w !! p).
Qed.

Lemma getContext_keeps_files_witness :
  mem_content
    (world (handle_mcp_request mem_server
              (getContext_request ["a.txt"; "nope"] None)
              (mkSt example_world [])).2) "a.txt"
  = mem_content example_world "a.txt".
Proof.
  exact (getContext_keeps_files mem_server mem_io mem_content
           (getContext_request ["a.txt"; "nope"] None)
           (mkSt example_world []) eq_refl eq_refl mem_reads_keep_files
           "a.txt").
Defined.

(** X13: a read that fails is logged and does not fail the request: for
    a missing file the log gets the warning ["File not found: "] with the
    path, for any other failure the error ["Error reading file "] with
    the path and the description of the failure; the response is a
    result all the same. *)
Theorem getContext_logs_failed_reads {W} (srv : Server W)
    (io : InputOutput W) (request : JsonRpcRequest.t) (ps : list string)
    (st : St W) (p : string) (e : Exn) :
  JsonRpcRequest.method request = "getContext" ->
  aider_io srv = Some io ->
  GetContextParams_init (default ∅ (JsonRpcRequest.params request))
  = Return {| file_paths := ps |} ->
  StableReads io ->
  p ∈ ps ->
  (read_text io p (world st)).1 = Raise e ->
  exists fs st',
    handle_mcp_request srv request st
    = (Return (result_response (GetContextDump {| files := fs |})
                 (JsonRpcRequest.id request)),
       st')
    /\ (if is_FileNotFoundError e
        then (WARNING, "File not found: " +:+ p)
        else (ERROR, "Error reading file " +:+ p +:+ ": " +:+ exn_str e))
       ∈ logs st'.
Proof.
  intros Hm Hio Hinit Hstable Hp Hread.
  rewrite handle_mcp_request_getContext by (by rewrite ?Hio).
  unfold handle_get_context.
  unfold try_except, bind at 1, lift. rewrite Hinit. unfold bind.
  cbn [file_paths].
  destruct (read_each_logs srv io Hio ps [] (received request st) (world st) p
              Hstable) as (fs & st' & -> & _ & Hlog); [done | done |].
  unfold ret. exists fs, st'. split; [reflexivity|].
  apply Hlog. rewrite Hread. cbn [read_log].
  destruct (is_FileNotFoundError e); by left.
Qed.

Lemma getContext_logs_failed_reads_witness :
  exists fs st',
    handle_mcp_request mem_server
      (getContext_request ["a.txt"; "nope"] None) (mkSt unreadable_world [])
    = (Return (result_response (GetContextDump {| files := fs |}) None), st')
    /\ (ERROR, "Error reading file a.txt: invalid start byte") ∈ logs st'.
Proof.
  apply (getContext_logs_failed_reads mem_server mem_io
           (getContext_request ["a.txt"; "nope"] None) ["a.txt"; "nope"]
           (mkSt unreadable_world []) "a.txt"
           (PyExn (OtherException "UnicodeDecodeError") "invalid start byte")).
  - reflexivity.
  - reflexivity.
  - vm_compute. reflexivity.
  - exact mem_stable_reads.
  - left.
  - reflexivity.
Defined.

(** ** Reading the cause off the error code *)

(** X14: the three codes of the envelope each have one cause: -32600 is
    given exactly to a request with an empty method, -32603 exactly to a
    request with a method while the I/O provider is unset, and -32601
    exactly to a request that names an unknown method while the provider
    is set. *)
Theorem error_codes_tell_the_cause {W} (srv : Server W)
    (request : JsonRpcRequest.t) (st : St W) :
  exists resp st',
    handle_mcp_request srv request st = (Return resp, st')
    /\ (error_code resp = Some (-32600)
        <-> JsonRpcRequest.method request = "")
    /\ (error_code resp = Some (-32603)
        <-> JsonRpcRequest.method request <> ""
            /\ is_not_None (aider_io srv) = false)
    /\ (error_code resp = Some (-32601)
        <-> JsonRpcRequest.method request <> ""
            /\ JsonRpcRequest.method request <> "getContext"
            /\ JsonRpcRequest.method request <> "applyChanges"
            /\ is_not_None (aider_io srv) = true).
Proof.
  assert (Hsplit : forall P Q R : Prop, P -> Q -> R -> P /\ Q /\ R) by tauto.
  destruct (decide (JsonRpcRequest.method request = "")) as [Hm|Hm].
  { unfold handle_mcp_request. unfold logger at 1, bind at 1.
    rewrite decide_True by done. unfold ret. do 2 eexists.
    split; [reflexivity|]. cbn.
    apply Hsplit; split; try done; try tauto; intros [= ]. }
  destruct (aider_io srv) as [io|] eqn:Hio; cycle 1.
  { unfold handle_mcp_request. unfold logger at 1, bind at 1.
    rewrite decide_False, Hio by done. unfold ret. do 2 eexists.
    split; [reflexivity|]. cbn.
    apply Hsplit; split; try done; try tauto; try (by intros [= ]).
    by intros (_ & _ & _ & [=]). }
  destruct (decide (JsonRpcRequest.method request = "getContext")) as [Hg|Hg].
  { rewrite handle_mcp_request_getContext by (by rewrite ?Hio).
    destruct (handle_get_context _ _ _) as [[r|e] st1]; do 2 eexists;
      (split; [reflexivity|]); cbn;
      apply Hsplit; split; try done; try tauto; try (by intros [_ [=]]). }
  destruct (decide (JsonRpcRequest.method request = "applyChanges")) as [Ha|Ha].
  { rewrite handle_mcp_request_applyChanges by (by rewrite ?Hio).
    destruct (handle_apply_changes _ _ _) as [[r|e] st1]; do 2 eexists;
      (split; [reflexivity|]); cbn;
      apply Hsplit; split; try done; try tauto; try (by intros [_ [=]]). }
  rewrite unknown_method_not_found by (by rewrite ?Hio).
  do 2 eexists. split; [reflexivity|]. cbn.
  apply Hsplit; split; try done; try tauto; try (by intros [_ [=]]).
Qed.
